(** * ABayes / MiniAb: a shallow embedding of the A/B-testing glue layer

    The two Python classes [ABayes] (src/abayes/abayes.py) and [MiniAb]
    (src/miniab/miniab.py) are embedded as state-passing functions over an
    explicit world (the cache directory and a log of the calls made to the
    external toolchain).  The external collaborators (jinja2 templates,
    cmdstanpy, arviz) are the fields of the class [Toolchain]; everything
    the two classes compute themselves, including the JSON text and the MD5
    digest behind the cache fingerprint, is executable. *)

From Stdlib Require Import ZArith List String Ascii Bool Lia.
From stdpp Require Import base gmap strings list fin_maps.
Import ListNotations.

Local Open Scope string_scope.
Local Open Scope Z_scope.
Local Open Scope list_scope.

(** ** Python strings

    A Python [str] is modelled as a Rocq [string] whose characters are the
    code points 0..255. *)

Definition ord (c : ascii) : Z := Z.of_nat (nat_of_ascii c).
Definition chr (n : Z) : ascii := ascii_of_nat (Z.to_nat n).

Definition dquote : ascii := "034"%char.
Definition backslash : ascii := "092"%char.
Definition newline : ascii := "010"%char.

Definition str1 (c : ascii) : string := String c EmptyString.

(** [str.lower] on code points below 256: A-Z and the Latin-1 capitals
    (0xC0..0xDE without the multiplication sign 0xD7) move up by 32. *)
Definition lower_char (c : ascii) : ascii :=
  let n := ord c in
  if ((65 <=? n) && (n <=? 90))
     || ((192 <=? n) && (n <=? 222) && negb (n =? 215))
  then chr (n + 32) else c.

Fixpoint lower (s : string) : string :=
  match s with
  | EmptyString => EmptyString
  | String c s' => String (lower_char c) (lower s')
  end.

(** [s.replace(old, new)] for a non-empty [old]: the occurrences are found
    from the left and do not overlap; [skip] counts the characters of an
    occurrence that are still to be passed over. *)
Fixpoint replace_from (old new : string) (skip : nat) (s : string) : string :=
  match s with
  | EmptyString => EmptyString
  | String c s' =>
      match skip with
      | S k => replace_from old new k s'
      | O =>
          if String.prefix old s
          then new +:+ replace_from old new (String.length old - 1) s'
          else String c (replace_from old new 0 s')
      end
  end.

Definition replace (old new s : string) : string := replace_from old new 0 s.

(** ** json.dumps with its default options (ensure_ascii, comma-space and
    colon-space separators) *)

Module Json.

Definition hex_digit (n : Z) : ascii :=
  if n <? 10 then chr (48 + n) else chr (87 + n).

(** ['\\u{0:04x}'.format(n)] for n < 0x10000. *)
Definition u_escape (n : Z) : string :=
  String backslash
    (String "u"
       (String (hex_digit (Z.shiftr n 12 mod 16))
          (String (hex_digit (Z.shiftr n 8 mod 16))
             (String (hex_digit (Z.shiftr n 4 mod 16))
                (String (hex_digit (n mod 16)) EmptyString))))).

(** One step of [py_encode_basestring_ascii]: its regular expression
    selects backslash, double quote and everything outside space..tilde;
    ESCAPE_DCT gives the short escapes, the rest becomes a u-escape. *)
Definition escape_char (c : ascii) : string :=
  let n := ord c in
  if n =? 92 then String backslash (str1 backslash)
  else if n =? 34 then String backslash (str1 dquote)
  else if n =? 8 then String backslash "b"
  else if n =? 12 then String backslash "f"
  else if n =? 10 then String backslash "n"
  else if n =? 13 then String backslash "r"
  else if n =? 9 then String backslash "t"
  else if (32 <=? n) && (n <=? 126) then str1 c
  else u_escape n.

Fixpoint escape (s : string) : string :=
  match s with
  | EmptyString => EmptyString
  | String c s' => escape_char c +:+ escape s'
  end.

Definition dumps_str (s : string) : string :=
  String dquote (escape s +:+ str1 dquote).

(** The items of a dict, in insertion order, joined by ", ". *)
Fixpoint dumps_items (kvs : list (string * string)) : string :=
  match kvs with
  | [] => ""
  | [(k, v)] => dumps_str k +:+ ": " +:+ dumps_str v
  | (k, v) :: rest =>
      dumps_str k +:+ ": " +:+ dumps_str v +:+ ", " +:+ dumps_items rest
  end.

Definition dumps_dict (kvs : list (string * string)) : string :=
  "{" +:+ dumps_items kvs +:+ "}".

(** [json.dumps((d, s))]: a tuple is written as a JSON array. *)
Definition dumps_pair (d : list (string * string)) (s : string) : string :=
  "[" +:+ dumps_dict d +:+ ", " +:+ dumps_str s +:+ "]".

End Json.

(** ** hashlib.md5 (RFC 1321), on bytes as integers 0..255 *)

Module MD5.

Definition w32 (x : Z) : Z := x mod 4294967296.

Definition rotl (x c : Z) : Z :=
  w32 (Z.lor (Z.shiftl x c) (Z.shiftr x (32 - c))).

Definition lnot32 (x : Z) : Z := Z.lxor x 4294967295.

Definition S_table : list Z :=
  [7; 12; 17; 22; 7; 12; 17; 22; 7; 12; 17; 22; 7; 12; 17; 22;
   5; 9; 14; 20; 5; 9; 14; 20; 5; 9; 14; 20; 5; 9; 14; 20;
   4; 11; 16; 23; 4; 11; 16; 23; 4; 11; 16; 23; 4; 11; 16; 23;
   6; 10; 15; 21; 6; 10; 15; 21; 6; 10; 15; 21; 6; 10; 15; 21].

Definition K_table : list Z :=
  [0xd76aa478; 0xe8c7b756; 0x242070db; 0xc1bdceee;
   0xf57c0faf; 0x4787c62a; 0xa8304613; 0xfd469501;
   0x698098d8; 0x8b44f7af; 0xffff5bb1; 0x895cd7be;
   0x6b901122; 0xfd987193; 0xa679438e; 0x49b40821;
   0xf61e2562; 0xc040b340; 0x265e5a51; 0xe9b6c7aa;
   0xd62f105d; 0x02441453; 0xd8a1e681; 0xe7d3fbc8;
   0x21e1cde6; 0xc33707d6; 0xf4d50d87; 0x455a14ed;
   0xa9e3e905; 0xfcefa3f8; 0x676f02d9; 0x8d2a4c8a;
   0xfffa3942; 0x8771f681; 0x6d9d6122; 0xfde5380c;
   0xa4beea44; 0x4bdecfa9; 0xf6bb4b60; 0xbebfbc70;
   0x289b7ec6; 0xeaa127fa; 0xd4ef3085; 0x04881d05;
   0xd9d4d039; 0xe6db99e5; 0x1fa27cf8; 0xc4ac5665;
   0xf4292244; 0x432aff97; 0xab9423a7; 0xfc93a039;
   0x655b59c3; 0x8f0ccc92; 0xffeff47d; 0x85845dd1;
   0x6fa87e4f; 0xfe2ce6e0; 0xa3014314; 0x4e0811a1;
   0xf7537e82; 0xbd3af235; 0x2ad7d2bb; 0xeb86d391].

Definition nthZ (l : list Z) (i : Z) : Z := nth (Z.to_nat i) l 0.

(** The message followed by 0x80, zeros up to 56 mod 64, and the bit
    length as a 64-bit little-endian integer. *)
Definition le_bytes (n : nat) (x : Z) : list Z :=
  map (fun i => Z.shiftr x (8 * Z.of_nat i) mod 256) (seq 0 n).

Definition pad (msg : list Z) : list Z :=
  let len := Z.of_nat (length msg) in
  let zeros := Z.to_nat ((55 - len) mod 64) in
  msg ++ [128] ++ repeat 0 zeros ++ le_bytes 8 ((8 * len) mod 2 ^ 64).

Fixpoint le_word (bs : list Z) : Z :=
  match bs with
  | [] => 0
  | b :: bs' => b + 256 * le_word bs'
  end.

Fixpoint words (n : nat) (bs : list Z) : list Z :=
  match n with
  | O => []
  | S n' => le_word (firstn 4 bs) :: words n' (skipn 4 bs)
  end.

Record regs := Regs { rA : Z; rB : Z; rC : Z; rD : Z }.

Definition round (M : list Z) (r : regs) (i : Z) : regs :=
  let '(Regs A B C D) := r in
  let '(F, g) :=
    if i <? 16 then (Z.lor (Z.land B C) (Z.land (lnot32 B) D), i)
    else if i <? 32 then
      (Z.lor (Z.land D B) (Z.land (lnot32 D) C), (5 * i + 1) mod 16)
    else if i <? 48 then (Z.lxor B (Z.lxor C D), (3 * i + 5) mod 16)
    else (Z.lxor C (Z.lor B (lnot32 D)), (7 * i) mod 16) in
  let F' := w32 (F + A + nthZ K_table i + nthZ M g) in
  Regs D (w32 (B + rotl F' (nthZ S_table i))) B C.

Definition block (h : regs) (M : list Z) : regs :=
  let r := fold_left (round M) (map Z.of_nat (seq 0 64)) h in
  Regs (w32 (rA h + rA r)) (w32 (rB h + rB r))
       (w32 (rC h + rC r)) (w32 (rD h + rD r)).

Fixpoint blocks (n : nat) (h : regs) (bs : list Z) : regs :=
  match n with
  | O => h
  | S n' => blocks n' (block h (words 16 (firstn 64 bs))) (skipn 64 bs)
  end.

Definition init : regs := Regs 0x67452301 0xefcdab89 0x98badcfe 0x10325476.

Definition digest (msg : list Z) : list Z :=
  let p := pad msg in
  let r := blocks (length p / 64)%nat init p in
  le_bytes 4 (rA r) ++ le_bytes 4 (rB r) ++ le_bytes 4 (rC r)
    ++ le_bytes 4 (rD r).

Definition hex_byte (b : Z) : string :=
  String (Json.hex_digit (b / 16)) (str1 (Json.hex_digit (b mod 16))).

Fixpoint hex (bs : list Z) : string :=
  match bs with
  | [] => ""
  | b :: bs' => hex_byte b +:+ hex bs'
  end.

(** [s.encode("utf-8")] for the ASCII text that [json.dumps] produces. *)
Fixpoint encode (s : string) : list Z :=
  match s with
  | EmptyString => []
  | String c s' => ord c :: encode s'
  end.

(** [md5(s.encode("utf-8")).hexdigest()] *)
Definition hexdigest (s : string) : string := hex (digest (encode s)).

End MD5.


(** ** Python values, exceptions and results *)

(** The simple Python values that travel as keyword options, as the seed or
    as an argument of [CmdStanModel]. *)
Inductive PyVal :=
| PyNone
| PyBool (b : bool)
| PyInt (n : Z)
| PyStr (s : string).

Definition truthy (v : PyVal) : bool :=
  match v with
  | PyNone => false
  | PyBool b => b
  | PyInt n => negb (n =? 0)
  | PyStr s => negb (String.eqb s "")
  end.

Definition Priors := list (string * string).
Definition Kwargs := list (string * PyVal).

Definition keys {A B : Type} (d : list (A * B)) : list A := map fst d.
Definition values {A B : Type} (d : list (A * B)) : list B := map snd d.

Definition has_key {B : Type} (k : string) (d : list (string * B)) : bool :=
  existsb (String.eqb k) (keys d).

Inductive PyClass :=
| ValueErrorC | AttributeErrorC | TypeErrorC | NameErrorC
| TemplateNotFoundC | ExternalC.

(** The types and errors of the external collaborators. *)
Class ExtTypes := {
  Template : Type;   (* a jinja2 template *)
  Model : Type;      (* cmdstanpy.CmdStanModel *)
  MCMC : Type;       (* cmdstanpy.CmdStanMCMC *)
  Draws : Type;      (* what stan_variables() returns *)
  IData : Type;      (* arviz.InferenceData *)
  Table : Type;      (* the data frame of arviz.summary *)
  Obs : Type;        (* one observation *)
  ExtError : Type    (* an exception raised inside an external library *)
}.

Section Core.
Context `{ET : ExtTypes}.

Inductive exn :=
| ValueError (msg : string)        (* raise ValueError(msg) *)
| AttributeError (msg : string)    (* raise AttributeError(msg) *)
| UnpackError (got : nat)          (* y1, y2 = ... on another count *)
| DuplicateKeyword (name : string) (* a keyword given twice in a call *)
| MissingAttribute (name : string) (* attribute lookup that finds nothing *)
| NameError (name : string)        (* a global name that is not defined *)
| TemplateNotFound (name : string) (* jinja2.exceptions.TemplateNotFound *)
| External (e : ExtError).

Definition class_of (e : exn) : PyClass :=
  match e with
  | ValueError _ | UnpackError _ => ValueErrorC
  | AttributeError _ | MissingAttribute _ => AttributeErrorC
  | DuplicateKeyword _ => TypeErrorC
  | NameError _ => NameErrorC
  | TemplateNotFound _ => TemplateNotFoundC
  | External _ => ExternalC
  end.

Inductive result (A : Type) :=
| Ok (a : A)
| Raise (e : exn).
Global Arguments Ok {A} a.
Global Arguments Raise {A} e.

(** *** State and exceptions *)

Definition M (S A : Type) : Type := S -> S * result A.

Definition ret {S A} (a : A) : M S A := fun s => (s, Ok a).
Definition raise {S A} (e : exn) : M S A := fun s => (s, Raise e).
Definition bind {S A B} (c : M S A) (k : A -> M S B) : M S B :=
  fun s => match c s with
           | (s', Ok a) => k a s'
           | (s', Raise e) => (s', Raise e)
           end.
Definition get {S} : M S S := fun s => (s, Ok s).
Definition modify {S} (f : S -> S) : M S unit := fun s => (f s, Ok tt).

(** [try: c  except: h e] *)
Definition try_except {S A} (c : M S A) (h : exn -> M S A) : M S A :=
  fun s => match c s with
           | (s', Ok a) => (s', Ok a)
           | (s', Raise e) => h e s'
           end.

(** *** The data handed to the sampler and to [fit] *)

Definition Vector := list Obs.

(** The dictionary with keys N, j and y. *)
Record CleanData := {
  data_N : Z;
  data_j : list Z;
  data_y : list Obs
}.

(** Python values that have no [__iter__]. *)
Inductive Plain :=
| PlainNone
| PlainBool (b : bool)
| PlainInt (n : Z).

(** The [data] argument of [fit]: the two shapes of [DataTypes], and an
    object without [__iter__]. *)
Inductive Data :=
| DObject (v : Plain)
| DDict (items : list (string * Vector))
| DSeq (items : list Vector).

(** *** The world: the files of the cache and the external calls made *)

Inductive CsmArg :=
| StanFile (v : PyVal)   (* CmdStanModel(stan_file=v) *)
| ExeFile (v : PyVal).   (* CmdStanModel(exe_file=v) *)

Inductive Event :=
| EvOpenW (path : string)
| EvWrite (path text : string)
| EvGetTemplate (name : string)
| EvRender (t : Template) (priors : Priors)
| EvCmdStanModel (arg : CsmArg)
| EvSample (m : Model) (data : CleanData) (kwargs : Kwargs).

Record World := {
  files : gmap string string;   (* path to text *)
  log : list Event              (* oldest first *)
}.

Definition emit (ev : Event) : M World unit :=
  modify (fun w => {| files := files w; log := log w ++ [ev] |}).

(** [name in os.listdir(dir)], for a name without a slash. *)
Definition in_listdir (dir name : string) : M World bool :=
  fun w => (w, Ok (bool_decide (is_Some (files w !! (dir +:+ "/" +:+ name))))).

(** [open(path, "w")]: the file exists and is empty afterwards. *)
Definition open_w (path : string) : M World unit :=
  bind (emit (EvOpenW path))
       (fun _ => modify (fun w => {| files := <[path := ""]> (files w);
                                     log := log w |})).

(** [f.write(text)]: returns the number of characters written. *)
Definition write (path text : string) : M World Z :=
  bind (emit (EvWrite path text))
       (fun _ =>
          bind (modify (fun w =>
                  {| files := <[path := default "" (files w !! path) +:+ text]>
                                (files w);
                     log := log w |}))
               (fun _ => ret (Z.of_nat (String.length text)))).

(** A call into an external library: logged, and answered by the library
    from the world as it was when the call was made. *)
Definition call_ext {A} (ev : Event) (f : World -> result A) : M World A :=
  fun w => let r := f w in
           ({| files := files w; log := log w ++ [ev] |}, r).

Definition ask_ext {A} (f : World -> result A) : M World A :=
  fun w => (w, f w).

(** Methods run on the instance and the world together. *)
Definition liftW {O A} (c : M World A) : M (O * World) A :=
  fun '(o, w) => let '(w', r) := c w in ((o, w'), r).

Definition self {O} : M (O * World) O := fun s => (s, Ok (fst s)).
Definition set_self {O} (f : O -> O) : M (O * World) unit :=
  modify (fun '(o, w) => (f o, w)).

(** [y1, y2 = xs] *)
Definition unpack2 {S A} (xs : list A) : M S (A * A) :=
  match xs with
  | [a; b] => ret (a, b)
  | _ => raise (UnpackError (length xs))
  end.

(** [np.hstack] of one-dimensional vectors. *)
Definition hstack (vs : list Vector) : list Obs := concat vs.

(** A call that spreads [kwargs] and then gives the keyword [name] too: a
    name already among the keywords is a TypeError raised before the
    callee runs. *)
Definition with_keyword {S} (kwargs : Kwargs) (name : string) (v : PyVal)
  : M S Kwargs :=
  if has_key name kwargs then raise (DuplicateKeyword name)
  else ret (kwargs ++ [(name, v)]).

End Core.

Declare Scope py_scope.
Delimit Scope py_scope with py.
Notation "x <- c1 ;; c2" := (bind c1 (fun x => c2))
  (at level 100, c1 at next level, right associativity) : py_scope.
Notation "c1 ;; c2" := (bind c1 (fun _ => c2))
  (at level 100, right associativity) : py_scope.

(** The external collaborators themselves. *)
Class Toolchain `{ET : ExtTypes} := {
  (** [str(CACHE_LOCATION)] *)
  CACHE_LOCATION : string;
  (** [LIKELIHOODS] as an f-string prints it *)
  LIKELIHOODS_str : string;
  (** [ENVIRONMENT.get_template(name)] *)
  get_template : string -> result Template;
  (** [template.render(priors=priors)] *)
  render : Template -> Priors -> result string;
  (** [csp.CmdStanModel(stan_file=...)] or [csp.CmdStanModel(exe_file=...)] *)
  CmdStanModel : World -> CsmArg -> result Model;
  (** [model.sample] with the data and the keyword options *)
  sample : World -> Model -> CleanData -> Kwargs -> result MCMC;
  (** [fit.stan_variables()] *)
  stan_variables : World -> MCMC -> result Draws;
  (** [az.from_cmdstanpy(fit)]; the argument may be None *)
  from_cmdstanpy : World -> option MCMC -> result IData;
  (** [az.summary(idata, var_names=variables)] *)
  az_summary : World -> IData -> list string -> result Table
}.

(** ** src/abayes/abayes.py *)

Module ABayes.
Section WithToolchain.
Context `{TC : Toolchain}.
Local Open Scope py_scope.

Definition DEFAULT_PRIORS : Priors :=
  [("mu", "normal(0, 1)"); ("sigma", "normal(0, 1)")].

(** What [self] holds while [__init__] calls [compile]. *)
Record config := {
  _likelihood : string;
  _priors : Priors
}.

(** An instance after [__init__]; the last two fields are the entries
    that [cached_property] adds to the instance dictionary. *)
Record obj := {
  cfg : config;
  model : Model;
  _fit : option MCMC;
  draws_cached : option Draws;
  summary_cached : option Table
}.

Definition likelihood (self : config) : string := _likelihood self.
Definition priors (self : config) : Priors := _priors self.
Definition cmdstan_mcmc (self : obj) : option MCMC := _fit self.

Definition _hash (self : config) : string :=
  MD5.hexdigest (Json.dumps_pair (priors self) (likelihood self)).

Definition unsupported_message (self : config) : string :=
  "Cannot build model for likelihood " +:+ _likelihood self +:+ "."
    +:+ str1 newline
    +:+ "Likelihoods available are " +:+ LIKELIHOODS_str +:+ ".".

Definition _render_model (self : config) : M World string :=
  let name := "distributions/" +:+ lower (_likelihood self) +:+ ".stan" in
  template <-
    try_except
      (call_ext (EvGetTemplate name) (fun _ => get_template name))
      (fun e => match e with
                | TemplateNotFound _ =>
                    raise (ValueError (unsupported_message self))
                | _ => raise e
                end) ;;
  rendered <-
    call_ext (EvRender template (priors self))
             (fun _ => render template (priors self)) ;;
  ret rendered.

Definition compile (self : config) (force : PyVal) : M World Model :=
  let stan_file := _hash self +:+ ".stan" in
  listed <- in_listdir CACHE_LOCATION stan_file ;;
  if truthy force || negb listed then
    let stan_file_path := CACHE_LOCATION +:+ "/" +:+ stan_file in
    open_w stan_file_path ;;
    text <- _render_model self ;;
    write stan_file_path text ;;
    call_ext (EvCmdStanModel (StanFile (PyStr stan_file_path)))
             (fun w => CmdStanModel w (StanFile (PyStr stan_file_path)))
  else
    let exe := CACHE_LOCATION +:+ "/" +:+ _hash self in
    call_ext (EvCmdStanModel (ExeFile (PyStr exe)))
             (fun w => CmdStanModel w (ExeFile (PyStr exe))).

(** Defaults: likelihood "normal", priors DEFAULT_PRIORS, seed None,
    force_compile None. *)
Definition __init__ (likelihood : string) (priors : Priors) (seed : PyVal)
    (force_compile : PyVal) : M World obj :=
  let self := {| _likelihood := likelihood; _priors := priors |} in
  m <- compile self force_compile ;;
  ret {| cfg := self; model := m; _fit := None;
         draws_cached := None; summary_cached := None |}.

Definition set_fit (r : MCMC) (o : obj) : obj :=
  {| cfg := cfg o; model := model o; _fit := Some r;
     draws_cached := draws_cached o; summary_cached := summary_cached o |}.

Definition ones_and_twos (y1 y2 : Vector) : list Z :=
  repeat 1 (length y1) ++ repeat 2 (length y2).

(** Lines 62 to 66 of [fit], once [y1] and [y2] are bound. *)
Definition fit_groups (y1 y2 : Vector) (cmdstanpy_kwargs : Kwargs)
  : M (obj * World) unit :=
  let y := hstack [y1; y2] in
  let _j := ones_and_twos y1 y2 in
  let clean_data :=
    {| data_N := Z.of_nat (length y1) + Z.of_nat (length y2);
       data_j := _j; data_y := y |} in
  o <- self ;;
  kw <- with_keyword cmdstanpy_kwargs "show_console" (PyBool true) ;;
  r <- liftW (call_ext (EvSample (model o) clean_data kw)
                (fun w => sample w (model o) clean_data kw)) ;;
  set_self (set_fit r).

Definition fit (data : Data) (cmdstanpy_kwargs : Kwargs)
  : M (obj * World) unit :=
  match data with
  | DObject _ =>
      raise (ValueError "Data passed to MiniAb.fit must be an iterable.")
  | DDict items =>
      p <- unpack2 (values items) ;;
      fit_groups (fst p) (snd p) cmdstanpy_kwargs
  | DSeq items =>
      p <- unpack2 items ;;
      fit_groups (fst p) (snd p) cmdstanpy_kwargs
  end.

Definition _check_fit_exists : M (obj * World) bool :=
  o <- self ;;
  match _fit o with
  | None => raise (AttributeError "The model has not been fit yet.")
  | Some _ => ret true
  end.

(** A plain property: computed at every access. *)
Definition inference_data : M (obj * World) IData :=
  _check_fit_exists ;;
  o <- self ;;
  liftW (ask_ext (fun w => from_cmdstanpy w (cmdstan_mcmc o))).

(** [functools.cached_property]: the first value that the body returns is
    stored on the instance and returned by every later access. *)
Definition cached_property {A} (cached : obj -> option A)
    (store : A -> obj -> obj) (body : M (obj * World) A)
  : M (obj * World) A :=
  o <- self ;;
  match cached o with
  | Some v => ret v
  | None => v <- body ;; set_self (store v) ;; ret v
  end.

Definition store_draws (v : Draws) (o : obj) : obj :=
  {| cfg := cfg o; model := model o; _fit := _fit o;
     draws_cached := Some v; summary_cached := summary_cached o |}.

Definition store_summary (v : Table) (o : obj) : obj :=
  {| cfg := cfg o; model := model o; _fit := _fit o;
     draws_cached := draws_cached o; summary_cached := Some v |}.

Definition draws : M (obj * World) Draws :=
  cached_property draws_cached store_draws
    (_check_fit_exists ;;
     o <- self ;;
     match _fit o with
     | Some r => liftW (ask_ext (fun w => stan_variables w r))
     | None => raise (MissingAttribute "stan_variables")
     end).

(** The list [variables] that [summary] builds. *)
Definition summary_variables (self : config) : list string :=
  let variables := ["mu"; "mu_diff"] in
  let variables :=
    if String.eqb (_likelihood self) "normal"
    then variables ++ ["sigma"; "sigma_diff"] else variables in
  let variables :=
    if String.eqb (_likelihood self) "bernoulli"
    then variables ++ ["mu_prob"; "mu_prob_diff"] else variables in
  variables.

Definition summary : M (obj * World) Table :=
  cached_property summary_cached store_summary
    (_check_fit_exists ;;
     o <- self ;;
     let variables := summary_variables (cfg o) in
     idata <- inference_data ;;
     liftW (ask_ext (fun w => az_summary w idata variables))).

End WithToolchain.
End ABayes.

(** ** src/miniab/miniab.py *)

Module MiniAb.
Section WithToolchain.
Context `{TC : Toolchain}.
Local Open Scope py_scope.

(** The names that miniab.py binds at module level: its imports, its
    constants and the class. *)
Definition module_globals : list string :=
  ["annotations"; "Environment"; "PackageLoader"; "TemplateNotFound";
   "os"; "Path"; "csp"; "ROOT"; "CACHE_LOCATION"; "DEFAULT_PRIORS";
   "LIKELIHOODS"; "ENVIRONMENT"; "MiniAb"].

(** Reading a name that is neither local nor a builtin. *)
Definition load_global {S} (name : string) : M S unit :=
  if existsb (String.eqb name) module_globals then ret tt
  else raise (NameError name).

Definition DEFAULT_PRIORS : Priors :=
  [("mu", "normal(0, 1)"); ("sigma", "normal(0, 1)")].

Record config := {
  _likelihood : string;
  _priors : Priors
}.

Record obj := {
  cfg : config;
  model : Model
}.

(** Line 17: the list comprehension over [os.listdir] of the template
    directory, given here as [listing]. *)
Definition LIKELIHOODS (listing : list string) : list string :=
  map (replace ".stan" "")
      (List.filter (fun dist => negb (String.eqb dist "base.stan")) listing).

(** [str(1234)] *)
Definition _hash (self : config) : string := "1234".

(** The body reads the global [env] first; the class has [_likelihood]
    and [_priors] but neither [likelihood] nor [priors], so that is where
    the expression would stop next.  The handler has to evaluate the name
    [TemplateNotFoundError] before it can compare anything. *)
Definition _render_model (self : config) : M World string :=
  template <-
    try_except
      (load_global "env" ;;
       raise (MissingAttribute "likelihood"))
      (fun e =>
         load_global "TemplateNotFoundError" ;;
         raise (MissingAttribute "likelihood")) ;;
  (raise (MissingAttribute "priors") : M World Template) ;;
  call_ext (EvRender template (_priors self))
           (fun _ => render template (_priors self)).

Definition compile (self : config) : M World Model :=
  listed <- in_listdir CACHE_LOCATION (_hash self) ;;
  if listed then
    let exe := CACHE_LOCATION +:+ "/" +:+ _hash self in
    call_ext (EvCmdStanModel (ExeFile (PyStr exe)))
             (fun w => CmdStanModel w (ExeFile (PyStr exe)))
  else
    let path := CACHE_LOCATION +:+ "/" +:+ _hash self in
    open_w path ;;
    text <- _render_model self ;;
    written <- write path text ;;
    let stan_file := PyInt written in
    call_ext (EvCmdStanModel (StanFile stan_file))
             (fun w => CmdStanModel w (StanFile stan_file)).

Definition __init__ (likelihood : string) (priors : Priors) : M World obj :=
  let self := {| _likelihood := likelihood; _priors := priors |} in
  m <- compile self ;;
  ret {| cfg := self; model := m |}.

(** [self.fit] is the method [fit], which has no [stan_variables]. *)
Definition samples : M (obj * World) Draws :=
  raise (MissingAttribute "stan_variables").

(** The body is [pass]. *)
Definition summary : M (obj * World) PyVal :=
  ret PyNone.

End WithToolchain.
End MiniAb.

(** ** Vocabulary for the statements *)

Section Vocabulary.
Context `{ET : ExtTypes}.

Definition new_events (before after : World) : list Event :=
  skipn (length (log before)) (log after).

Definition sample_request (ev : Event) : option (CleanData * Kwargs) :=
  match ev with
  | EvSample _ d k => Some (d, k)
  | _ => None
  end.

Definition is_render (ev : Event) : bool :=
  match ev with
  | EvGetTemplate _ | EvRender _ _ => true
  | _ => false
  end.

Definition logged (ev : Event) (w : World) : World :=
  {| files := files w; log := log w ++ [ev] |}.

(** The world after [open(path, "w")] and after [f.write(text)]. *)
Definition opened (path : string) (w : World) : World :=
  {| files := <[path := ""]> (files w); log := log w ++ [EvOpenW path] |}.

Definition written (path text : string) (w : World) : World :=
  {| files := <[path := default "" (files w !! path) +:+ text]> (files w);
     log := log w ++ [EvWrite path text] |}.

(** The two accepted shapes of the [data] argument. *)
Definition two_groups (d : Data) : option (Vector * Vector) :=
  match d with
  | DDict [(_, y1); (_, y2)] => Some (y1, y2)
  | DSeq [y1; y2] => Some (y1, y2)
  | _ => None
  end.

(** The number of groups of an iterable [data] argument. *)
Definition group_count (d : Data) : option nat :=
  match d with
  | DObject _ => None
  | DDict items => Some (length items)
  | DSeq items => Some (length items)
  end.

(** The record for groups [y1] and [y2]: count, labels, observations. *)
Definition record_of (y1 y2 : Vector) : CleanData :=
  {| data_N := Z.of_nat (length y1) + Z.of_nat (length y2);
     data_j := repeat 1 (length y1) ++ repeat 2 (length y2);
     data_y := y1 ++ y2 |}.

End Vocabulary.

(** Uses of one [ABayes] instance, one after the other. *)
Section Calls.
Context `{TC : Toolchain}.
Import ABayes.

Inductive call :=
| CallFit (data : Data) (kwargs : Kwargs)
| ReadDraws
| ReadSummary
| ReadInferenceData.

Inductive answer :=
| FitAnswer (r : result unit)
| DrawsAnswer (r : result Draws)
| SummaryAnswer (r : result Table)
| InferenceDataAnswer (r : result IData).

Definition perform (c : call) (st : obj * World) : (obj * World) * answer :=
  match c with
  | CallFit data kwargs =>
      let '(st', r) := fit data kwargs st in (st', FitAnswer r)
  | ReadDraws => let '(st', r) := draws st in (st', DrawsAnswer r)
  | ReadSummary => let '(st', r) := summary st in (st', SummaryAnswer r)
  | ReadInferenceData =>
      let '(st', r) := inference_data st in (st', InferenceDataAnswer r)
  end.

Fixpoint perform_all (cs : list call) (st : obj * World)
  : (obj * World) * list answer :=
  match cs with
  | [] => (st, [])
  | c :: cs' =>
      let '(st', a) := perform c st in
      let '(st'', answers) := perform_all cs' st' in
      (st'', a :: answers)
  end.

Definition fit_succeeded (a : answer) : bool :=
  match a with
  | FitAnswer (Ok _) => true
  | _ => false
  end.

(** The template and the two cache paths of a configuration. *)
Definition template_name (self : config) : string :=
  "distributions/" +:+ lower (_likelihood self) +:+ ".stan".

Definition stan_path (self : config) : string :=
  CACHE_LOCATION +:+ "/" +:+ (_hash self +:+ ".stan").

Definition exe_path (self : config) : string :=
  CACHE_LOCATION +:+ "/" +:+ _hash self.

(** Nothing fitted and nothing cached. *)
Definition unfit (o : obj) : Prop :=
  _fit o = None /\ draws_cached o = None /\ summary_cached o = None.

Definition not_fit_yet : exn :=
  AttributeError "The model has not been fit yet.".

End Calls.


(** ** A small concrete toolchain, to run the embedding on examples *)

Module Toy.

#[export] Instance types : ExtTypes := {|
  Template := string;
  Model := string;
  MCMC := Z * list Z;
  Draws := Z * list Z;
  IData := Z * list Z;
  Table := (Z * list Z) * list string;
  Obs := Z;
  ExtError := string
|}.

Definition templates : list string :=
  ["distributions/normal.stan"; "distributions/bernoulli.stan"].

#[export] Instance toolchain : Toolchain := {|
  CACHE_LOCATION := "/cache";
  LIKELIHOODS_str := "['normal', 'bernoulli']";
  get_template := fun name =>
    if existsb (String.eqb name) templates then Ok name
    else Raise (TemplateNotFound name);
  render := fun t priors => Ok (t +:+ ": " +:+ Json.dumps_dict priors);
  CmdStanModel := fun w arg =>
    match arg with
    | StanFile (PyStr p) => Ok p
    | ExeFile (PyStr p) =>
        (* an executable is there once a source with some text in it
           was compiled next to it *)
        match files w !! (p +:+ ".stan") with
        | Some (String _ _) => Ok p
        | _ => Raise (External ("no such file " +:+ p))
        end
    | _ => Raise (External "not a path")
    end;
  sample := fun _ _ d _ => Ok (data_N d, data_j d);
  stan_variables := fun _ r => Ok r;
  from_cmdstanpy := fun _ r =>
    match r with
    | Some r => Ok r
    | None => Raise (External "no fit")
    end;
  az_summary := fun _ i variables => Ok (i, variables)
|}.

Definition empty_world : World := {| files := ∅; log := [] |}.

Definition normal_cfg : ABayes.config :=
  {| ABayes._likelihood := "normal";
     ABayes._priors := ABayes.DEFAULT_PRIORS |}.

Definition poisson_cfg : ABayes.config :=
  {| ABayes._likelihood := "poisson";
     ABayes._priors := ABayes.DEFAULT_PRIORS |}.

(** A freshly constructed instance. *)
Definition fresh : ABayes.obj :=
  {| ABayes.cfg := normal_cfg;
     ABayes.model := "/cache/09c3d19c5da2b97b7ba18fbd5661ac32.stan";
     ABayes._fit := None;
     ABayes.draws_cached := None;
     ABayes.summary_cached := None |}.

(** The outcome of constructing it in an empty cache, and the world
    that this leaves. *)
Definition construction : World * result ABayes.obj :=
  ABayes.__init__ "normal" ABayes.DEFAULT_PRIORS PyNone PyNone empty_world.

Definition home : World := fst construction.

Definition control : Vector := [0; 1; 1; 0; 1].
Definition treatment : Vector := [1; 1; 1; 0; 1].

Definition example_data : Data :=
  DDict [("control", control); ("treatment", treatment)].

Definition bernoulli_cfg : ABayes.config :=
  {| ABayes._likelihood := "bernoulli";
     ABayes._priors := ABayes.DEFAULT_PRIORS |}.

(** A bernoulli instance after a fit of [example_data]. *)
Definition bernoulli_fitted : ABayes.obj :=
  {| ABayes.cfg := bernoulli_cfg;
     ABayes.model := "/cache/bernoulli.stan";
     ABayes._fit := Some (10, [1; 1; 1; 1; 1; 2; 2; 2; 2; 2]);
     ABayes.draws_cached := None;
     ABayes.summary_cached := None |}.

(** Fit, read everything, fit other data, read everything again. *)
Definition fit_read_refit_read : list call :=
  [CallFit example_data []; ReadDraws; ReadSummary; ReadInferenceData;
   CallFit (DSeq [[7]; [8; 9]]) []; ReadDraws; ReadSummary;
   ReadInferenceData].

(** The instance that a second construction gets in [home], where the
    source file is cached and the executable is loaded. *)
Definition reloaded : ABayes.obj :=
  {| ABayes.cfg := normal_cfg;
     ABayes.model := "/cache/09c3d19c5da2b97b7ba18fbd5661ac32";
     ABayes._fit := None;
     ABayes.draws_cached := None;
     ABayes.summary_cached := None |}.

Definition ten_labels : list Z := [1; 1; 1; 1; 1; 2; 2; 2; 2; 2].

Definition swapped_priors : Priors :=
  [("sigma", "normal(0, 1)"); ("mu", "normal(0, 1)")].

End Toy.


(** ** A toolchain whose libraries fail, for the error paths *)

Module Faulty.
Import Toy.

(** The template broken.stan does not parse, the bernoulli template does
    not render, the sampler refuses empty data and arviz does not know
    mu_prob. *)
Definition toolchain : Toolchain := {|
  CACHE_LOCATION := "/cache";
  LIKELIHOODS_str := "['normal', 'bernoulli', 'broken']";
  get_template := fun name =>
    if String.eqb name "distributions/broken.stan"
    then Raise (External "TemplateSyntaxError")
    else Ok name;
  render := fun t priors =>
    if String.eqb t "distributions/bernoulli.stan"
    then Raise (External "UndefinedError")
    else Ok (t +:+ ": " +:+ Json.dumps_dict priors);
  CmdStanModel := fun w arg =>
    match arg with
    | StanFile (PyStr p) => Ok p
    | ExeFile (PyStr p) => Ok p
    | _ => Raise (External "not a path")
    end;
  sample := fun _ _ d _ =>
    if data_N d =? 0 then Raise (External "RuntimeError: no observations")
    else Ok (data_N d, data_j d);
  stan_variables := fun _ r => Ok r;
  from_cmdstanpy := fun _ r =>
    match r with
    | Some r => Ok r
    | None => Raise (External "no fit")
    end;
  az_summary := fun _ i variables =>
    if existsb (String.eqb "mu_prob") variables
    then Raise (External "KeyError: mu_prob")
    else Ok (i, variables)
|}.

(** An instance that holds the result of an earlier fit. *)
Definition fitted : ABayes.obj :=
  {| ABayes.cfg := normal_cfg;
     ABayes.model := "/cache/09c3d19c5da2b97b7ba18fbd5661ac32.stan";
     ABayes._fit := Some (10, ten_labels);
     ABayes.draws_cached := None;
     ABayes.summary_cached := None |}.

End Faulty.

(** More concrete data for the small toolchain. *)
Module Cases.
Import Toy.

Definition capital_cfg : ABayes.config :=
  {| ABayes._likelihood := "Normal";
     ABayes._priors := ABayes.DEFAULT_PRIORS |}.

(** After a fit of [example_data], nothing read yet. *)
Definition fitted : ABayes.obj :=
  ABayes.set_fit (10, ten_labels) fresh.

(** After a fit and a read of draws and summary. *)
Definition fitted_and_read : ABayes.obj :=
  ABayes.store_summary ((10, ten_labels), ["mu"; "mu_diff"; "sigma"; "sigma_diff"])
    (ABayes.store_draws (10, ten_labels) fitted).

Definition miniab_cfg : MiniAb.config :=
  {| MiniAb._likelihood := "normal"; MiniAb._priors := MiniAb.DEFAULT_PRIORS |}.

Definition miniab_other_cfg : MiniAb.config :=
  {| MiniAb._likelihood := "bernoulli";
     MiniAb._priors := [("mu", "normal(0, 5)")] |}.

(** A cache that already holds the file 1234 with some text. *)
Definition with_1234 : World :=
  {| files := {[ "/cache/1234.stan" := "model"; "/cache/1234" := "" ]};
     log := [] |}.

Definition template_listing : list string :=
  ["normal.stan"; "base.stan"; "bernoulli.stan"].

End Cases.

(** ** Vocabulary for strings and for runs of calls *)


Fixpoint string_forall (P : ascii -> bool) (s : string) : bool :=
  match s with
  | EmptyString => true
  | String c s' => P c && string_forall P s'
  end.

Definition is_hex_digit (c : ascii) : bool :=
  let n := ord c in
  ((48 <=? n) && (n <=? 57)) || ((97 <=? n) && (n <=? 102)).

Definition is_dot (c : ascii) : bool := ord c =? 46.

Definition dot_free (s : string) : Prop :=
  string_forall (fun c => negb (is_dot c)) s = true.

(** [old] occurs somewhere in [s]. *)
Fixpoint occurs (old s : string) : bool :=
  match s with
  | EmptyString => String.prefix old EmptyString
  | String c s' => String.prefix old s || occurs old s'
  end.

(** Reading back one character that [Json.escape_char] wrote. *)
Definition unhex (c : ascii) : option Z :=
  let n := ord c in
  if (48 <=? n) && (n <=? 57) then Some (n - 48)
  else if (97 <=? n) && (n <=? 102) then Some (n - 87)
  else None.

Definition unescape_head (s : string) : option (ascii * string) :=
  match s with
  | EmptyString => None
  | String c r =>
      if ord c =? 92 then
        match r with
        | EmptyString => None
        | String e r' =>
            let n := ord e in
            if n =? 92 then Some (backslash, r')
            else if n =? 34 then Some (dquote, r')
            else if n =? 98 then Some (chr 8, r')
            else if n =? 102 then Some (chr 12, r')
            else if n =? 110 then Some (chr 10, r')
            else if n =? 114 then Some (chr 13, r')
            else if n =? 116 then Some (chr 9, r')
            else if n =? 117 then
              match r' with
              | String h1 (String h2 (String h3 (String h4 r''))) =>
                  match unhex h1, unhex h2, unhex h3, unhex h4 with
                  | Some a, Some b, Some c', Some d =>
                      Some (chr (4096 * a + 256 * b + 16 * c' + d), r'')
                  | _, _, _, _ => None
                  end
              | _ => None
              end
            else None
        end
      else if ord c =? 34 then None
      else Some (c, r)
  end.

(** * Properties *)

Example md5_empty : MD5.hexdigest "" = "d41d8cd98f00b204e9800998ecf8427e".
Proof. vm_compute. reflexivity. Qed.

Example md5_abc : MD5.hexdigest "abc" = "900150983cd24fb0d6963f7d28e17f72".
Proof. vm_compute. reflexivity. Qed.

Ltac unfold_py :=
  unfold bind, ret, raise, get, modify, try_except, emit, liftW, call_ext,
    ask_ext, self, set_self, unpack2, with_keyword in *.

(** ** The inference driver: [ABayes.fit] *)

Section FitProperties.
Context `{TC : Toolchain}.
Import ABayes.

Lemma hstack_two (y1 y2 : Vector) : hstack [y1; y2] = y1 ++ y2.
Proof. unfold hstack. simpl. now rewrite app_nil_r. Qed.

(** What lines 62 to 66 do when the options do not name show_console. *)
Lemma fit_groups_submits (o : obj) (w : World) (y1 y2 : Vector)
    (kw : Kwargs) :
  has_key "show_console" kw = false ->
  fit_groups y1 y2 kw (o, w) =
    let kw' := kw ++ [("show_console", PyBool true)] in
    let w' := logged (EvSample (model o) (record_of y1 y2) kw') w in
    match sample w (model o) (record_of y1 y2) kw' with
    | Ok r => ((set_fit r o, w'), Ok tt)
    | Raise e => ((o, w'), Raise e)
    end.
Proof.
  intros Hk. unfold fit_groups, ones_and_twos, record_of, logged.
  rewrite hstack_two. unfold_py. rewrite Hk. simpl.
  destruct (sample w (model o) _ _); reflexivity.
Qed.

Lemma fit_groups_duplicate (o : obj) (w : World) (y1 y2 : Vector)
    (kw : Kwargs) :
  has_key "show_console" kw = true ->
  fit_groups y1 y2 kw (o, w) =
    ((o, w), Raise (DuplicateKeyword "show_console")).
Proof.
  intros Hk. unfold fit_groups. unfold_py. rewrite Hk. reflexivity.
Qed.

Lemma fit_two_groups (o : obj) (w : World) (data : Data) (y1 y2 : Vector)
    (kw : Kwargs) :
  two_groups data = Some (y1, y2) ->
  fit data kw (o, w) = fit_groups y1 y2 kw (o, w).
Proof.
  destruct data as [v | items | items]; simpl; try discriminate.
  - destruct items as [| [k1 a] [| [k2 b] [| c rest]]]; try discriminate.
    intros [= <- <-]. reflexivity.
  - destruct items as [| a [| b [| c rest]]]; try discriminate.
    intros [= <- <-]. reflexivity.
Qed.

Lemma nth_error_repeat_Z (x : Z) (n i : nat) :
  (i < n)%nat -> nth_error (repeat x n) i = Some x.
Proof.
  revert i. induction n as [| n IH]; intros i Hi; [lia |].
  destruct i as [| i]; simpl; [reflexivity | apply IH; lia].
Qed.

(** The labels line up with the observations: position i of the first
    group carries label 1, position m+i of the second carries label 2. *)
Lemma record_aligned (y1 y2 : Vector) :
  let c := record_of y1 y2 in
  length (data_y c) = (length y1 + length y2)%nat /\
  length (data_j c) = length (data_y c) /\
  data_N c = Z.of_nat (length (data_y c)) /\
  (forall i, (i < length y1)%nat ->
     nth_error (data_j c) i = Some 1 /\
     nth_error (data_y c) i = nth_error y1 i) /\
  (forall i, (i < length y2)%nat ->
     nth_error (data_j c) (length y1 + i) = Some 2 /\
     nth_error (data_y c) (length y1 + i) = nth_error y2 i).
Proof.
  simpl. repeat split.
  - now rewrite length_app.
  - now rewrite !length_app, !repeat_length.
  - rewrite length_app. lia.
  - rewrite nth_error_app1 by (rewrite repeat_length; lia).
    now apply nth_error_repeat_Z.
  - now rewrite nth_error_app1 by lia.
  - rewrite nth_error_app2 by (rewrite repeat_length; lia).
    rewrite repeat_length.
    replace (length y1 + i - length y1)%nat with i by lia.
    now apply nth_error_repeat_Z.
  - rewrite nth_error_app2 by lia.
    now replace (length y1 + i - length y1)%nat with i by lia.
Qed.

(** C1, amended.  For a mapping with exactly two named vectors or a pair
    of vectors, of sizes m and n, and passthrough options that do not
    themselves name show_console: fit builds the record with the m+n
    observations (first group, then second), m ones followed by n twos
    aligned with them and the count m+n, and submits it to the sampler
    together with the options and show_console=True; the sampler's result,
    when there is one, becomes the stored fit. *)
Theorem fit_submits_combined_record (o : obj) (w : World) (data : Data)
    (y1 y2 : Vector) (kw : Kwargs) :
  two_groups data = Some (y1, y2) ->
  has_key "show_console" kw = false ->
  let c := record_of y1 y2 in
  let kw' := kw ++ [("show_console", PyBool true)] in
  let w' := logged (EvSample (model o) c kw') w in
  fit data kw (o, w) =
    match sample w (model o) c kw' with
    | Ok r => ((set_fit r o, w'), Ok tt)
    | Raise e => ((o, w'), Raise e)
    end /\
  data_y c = y1 ++ y2 /\
  data_j c = repeat 1 (length y1) ++ repeat 2 (length y2) /\
  data_N c = Z.of_nat (length y1 + length y2) /\
  length (data_y c) = (length y1 + length y2)%nat /\
  length (data_j c) = length (data_y c) /\
  (forall i, (i < length y1)%nat ->
     nth_error (data_j c) i = Some 1 /\
     nth_error (data_y c) i = nth_error y1 i) /\
  (forall i, (i < length y2)%nat ->
     nth_error (data_j c) (length y1 + i) = Some 2 /\
     nth_error (data_y c) (length y1 + i) = nth_error y2 i).
Proof.
  intros Hd Hk c kw' w'.
  destruct (record_aligned y1 y2) as (Hlen & Hj & HN & H1 & H2).
  split; [| repeat split].
  - rewrite (fit_two_groups _ _ _ _ _ _ Hd).
    now rewrite (fit_groups_submits _ _ _ _ _ Hk).
  - unfold c. simpl. lia.
  - exact Hlen.
  - exact Hj.
  - apply (H1 i); assumption.
  - apply (H1 i); assumption.
  - apply (H2 i); assumption.
  - apply (H2 i); assumption.
Qed.

(** C8.  An argument without [__iter__] is rejected with the explicit
    ValueError of line 57; the instance and the world, and with it the log
    of sampler calls, are as before. *)
Theorem fit_rejects_non_iterable (o : obj) (w : World) (v : Plain)
    (kw : Kwargs) :
  fit (DObject v) kw (o, w) =
    ((o, w),
     Raise (ValueError "Data passed to MiniAb.fit must be an iterable.")).
Proof. reflexivity. Qed.

(** C10.  An iterable argument whose number of groups is not two makes
    the unpacking fail with a ValueError; nothing is sent to the sampler
    and the instance, stored fit included, is as before. *)
Theorem fit_rejects_other_group_counts (o : obj) (w : World) (data : Data)
    (kw : Kwargs) (n : nat) :
  group_count data = Some n ->
  n <> 2%nat ->
  fit data kw (o, w) = ((o, w), Raise (UnpackError n)) /\
  class_of (UnpackError n) = ValueErrorC /\
  new_events w (snd (fst (fit data kw (o, w)))) = [] /\
  _fit (fst (fst (fit data kw (o, w)))) = _fit o.
Proof.
  intros Hc Hn.
  assert (H : fit data kw (o, w) = ((o, w), Raise (UnpackError n))).
  { destruct data as [v | items | items]; simpl in Hc; try discriminate;
      injection Hc as <-; simpl; unfold_py.
    - unfold values. rewrite <- (length_map snd items) in *.
      destruct (map snd items) as [| a [| b [| c rest]]];
        simpl in *; try reflexivity; lia.
    - destruct items as [| a [| b [| c rest]]];
        simpl in *; try reflexivity; lia. }
  rewrite H. simpl. repeat split.
  unfold new_events. now rewrite skipn_all.
Qed.

(** Either [fit] stops before the sampler with the same error for every
    instance and world, or it is the call of [fit_groups_submits]. *)
Lemma fit_cases (data : Data) (kw : Kwargs) :
  (exists e, forall o w, fit data kw (o, w) = ((o, w), Raise e)) \/
  (exists y1 y2,
      two_groups data = Some (y1, y2) /\
      has_key "show_console" kw = false).
Proof.
  destruct (two_groups data) as [[y1 y2] |] eqn:Hd.
  - destruct (has_key "show_console" kw) eqn:Hk.
    + left. eexists. intros o w.
      rewrite (fit_two_groups _ _ _ _ _ _ Hd).
      now apply fit_groups_duplicate.
    + right. now exists y1, y2.
  - left. destruct data as [v | items | items]; simpl in *.
    + eexists. reflexivity.
    + destruct items as [| [k1 a] [| [k2 b] [| c rest]]];
        try discriminate; eexists; reflexivity.
    + destruct items as [| a [| b [| c rest]]];
        try discriminate; eexists; reflexivity.
Qed.

Lemma new_events_same (w : World) : new_events w w = [].
Proof. unfold new_events. now rewrite skipn_all. Qed.

Lemma new_events_logged (ev : Event) (w : World) :
  new_events w (logged ev w) = [ev].
Proof.
  unfold new_events, logged. simpl.
  rewrite skipn_app, skipn_all, Nat.sub_diag. reflexivity.
Qed.

(** What [fit] asks of the sampler depends on the data and the options
    only, not on the instance or on the world. *)
Lemma fit_requests_agree (data : Data) (kw : Kwargs) (o o' : obj)
    (w w' : World) :
  map sample_request (new_events w (snd (fst (fit data kw (o, w))))) =
  map sample_request (new_events w' (snd (fst (fit data kw (o', w'))))).
Proof.
  destruct (fit_cases data kw) as [[e He] | (y1 & y2 & Hd & Hk)].
  - rewrite !He. simpl. now rewrite !new_events_same.
  - rewrite !(fit_two_groups _ _ _ _ _ _ Hd).
    rewrite !(fit_groups_submits _ _ _ _ _ Hk). cbv zeta.
    destruct (sample w _ _ _), (sample w' _ _ _); simpl;
      now rewrite !new_events_logged.
Qed.

End FitProperties.

(** ** Rendering and the artifact cache: [ABayes] *)

Section CacheProperties.
Context `{TC : Toolchain}.
Import ABayes.

Lemma open_w_opened (path : string) (w : World) :
  open_w path w = (opened path w, Ok tt).
Proof. reflexivity. Qed.

Lemma write_written (path text : string) (w : World) :
  write path text w = (written path text w, Ok (Z.of_nat (String.length text))).
Proof. reflexivity. Qed.

(** No template: the ValueError of lines 82 and 83, after the lookup. *)
Lemma render_model_unsupported (self : config) (w : World) (n : string) :
  get_template (template_name self) = Raise (TemplateNotFound n) ->
  _render_model self w =
    (logged (EvGetTemplate (template_name self)) w,
     Raise (ValueError (unsupported_message self))).
Proof.
  intros H. unfold _render_model. fold (template_name self).
  unfold_py. rewrite H. reflexivity.
Qed.

(** The message names the likelihood as given and prints LIKELIHOODS. *)
Lemma unsupported_message_parts (self : config) :
  unsupported_message self =
    "Cannot build model for likelihood " +:+ (_likelihood self +:+
      ("." +:+ (str1 newline +:+ ("Likelihoods available are " +:+
         (LIKELIHOODS_str +:+ "."))))).
Proof. reflexivity. Qed.

Lemma render_model_supported (self : config) (w : World) (t : Template) :
  get_template (template_name self) = Ok t ->
  _render_model self w =
    (logged (EvRender t (_priors self))
       (logged (EvGetTemplate (template_name self)) w),
     render t (_priors self)).
Proof.
  intros H. unfold _render_model. fold (template_name self).
  unfold_py. rewrite H. simpl. unfold priors.
  destruct (render t (_priors self)); reflexivity.
Qed.

(** A cached source file and no forcing: only the executable is loaded. *)
Lemma compile_hit (self : config) (force : PyVal) (w : World) :
  is_Some (files w !! stan_path self) ->
  truthy force = false ->
  compile self force w =
    (logged (EvCmdStanModel (ExeFile (PyStr (exe_path self)))) w,
     CmdStanModel w (ExeFile (PyStr (exe_path self)))).
Proof.
  intros Hf Ht. unfold compile, in_listdir. unfold_py.
  fold (stan_path self). rewrite Ht, bool_decide_eq_true_2 by exact Hf.
  reflexivity.
Qed.

(** Forced, or no cached source file: open, render, write, compile. *)
Lemma compile_miss (self : config) (force : PyVal) (w : World) :
  truthy force = true \/ files w !! stan_path self = None ->
  compile self force w =
    match _render_model self (opened (stan_path self) w) with
    | (w2, Ok text) =>
        let w3 := written (stan_path self) text w2 in
        (logged (EvCmdStanModel (StanFile (PyStr (stan_path self)))) w3,
         CmdStanModel w3 (StanFile (PyStr (stan_path self))))
    | (w2, Raise e) => (w2, Raise e)
    end.
Proof.
  intros H. unfold compile, in_listdir. unfold_py.
  fold (stan_path self).
  assert (Hb : truthy force
               || negb (bool_decide (is_Some (files w !! stan_path self)))
               = true).
  { destruct H as [-> | Hn]; [reflexivity |].
    rewrite bool_decide_eq_false_2, orb_true_r; [reflexivity |].
    rewrite Hn. now intros [x Hx]. }
  rewrite Hb. simpl.
  fold (opened (stan_path self) w).
  destruct (_render_model self (opened (stan_path self) w)) as [w2 [text | e]];
    reflexivity.
Qed.

(** The positive half of the cache policy for [ABayes.compile]: on a miss
    with a template that renders to [text], the text is what the file
    named after the fingerprint holds when the compiler is called. *)
Lemma compile_miss_rendered (self : config) (force : PyVal) (w : World)
    (t : Template) (text : string) :
  truthy force = true \/ files w !! stan_path self = None ->
  get_template (template_name self) = Ok t ->
  render t (_priors self) = Ok text ->
  exists w3,
    compile self force w =
      (logged (EvCmdStanModel (StanFile (PyStr (stan_path self)))) w3,
       CmdStanModel w3 (StanFile (PyStr (stan_path self)))) /\
    files w3 !! stan_path self = Some text /\
    log w3 = log w ++ [EvOpenW (stan_path self);
                       EvGetTemplate (template_name self);
                       EvRender t (_priors self);
                       EvWrite (stan_path self) text].
Proof.
  intros Hm Ht Hr. rewrite (compile_miss _ _ _ Hm).
  rewrite (render_model_supported _ _ _ Ht), Hr.
  eexists. split; [reflexivity |]. split.
  - simpl. rewrite lookup_insert_eq. simpl.
    now rewrite lookup_insert_eq.
  - simpl. now rewrite <- !app_assoc.
Qed.

Lemma init_compile (lik : string) (pri : Priors) (seed force : PyVal)
    (w : World) :
  __init__ lik pri seed force w =
    match compile {| _likelihood := lik; _priors := pri |} force w with
    | (w', Ok m) =>
        (w', Ok {| cfg := {| _likelihood := lik; _priors := pri |};
                   model := m; _fit := None;
                   draws_cached := None; summary_cached := None |})
    | (w', Raise e) => (w', Raise e)
    end.
Proof.
  unfold __init__. unfold_py.
  destruct (compile _ force w) as [w' [m | e]]; reflexivity.
Qed.

Lemma init_cfg (lik : string) (pri : Priors) (seed force : PyVal)
    (w w' : World) (o : obj) :
  __init__ lik pri seed force w = (w', Ok o) ->
  cfg o = {| _likelihood := lik; _priors := pri |} /\ unfit o.
Proof.
  rewrite init_compile.
  destruct (compile _ force w) as [w1 [m | e]]; [| discriminate].
  intros [= _ <-]. repeat split.
Qed.

(** C9.  The seed argument changes nothing: for either seed the
    constructor gives the same outcome in every world (instance, files and
    the calls made to the external libraries), and two instances built
    from the same likelihood and priors, whatever their seeds, have the
    same fingerprint, render the same model and hand the same record and
    options to the sampler. *)
Theorem seed_has_no_effect (lik : string) (pri : Priors)
    (seed1 seed2 force1 force2 : PyVal) (w1 w2 w1' w2' : World)
    (o1 o2 : obj) :
  __init__ lik pri seed1 force1 w1 = (w1', Ok o1) ->
  __init__ lik pri seed2 force2 w2 = (w2', Ok o2) ->
  (forall force w,
      __init__ lik pri seed1 force w = __init__ lik pri seed2 force w) /\
  _hash (cfg o1) = _hash (cfg o2) /\
  (forall w, _render_model (cfg o1) w = _render_model (cfg o2) w) /\
  (forall data kw wa wb,
      map sample_request
          (new_events wa (snd (fst (fit data kw (o1, wa))))) =
      map sample_request
          (new_events wb (snd (fst (fit data kw (o2, wb)))))).
Proof.
  intros H1 H2.
  apply init_cfg in H1 as [C1 _]. apply init_cfg in H2 as [C2 _].
  rewrite C1, C2. repeat split.
  intros data kw wa wb. apply fit_requests_agree.
Qed.

(** C4, at the failing input.  A likelihood without a template, an empty
    cache entry and no forcing: the first construction raises the
    descriptive ValueError, but it has already created the source file, so
    a second construction of the same configuration finds it, renders
    nothing and only asks for the executable; whatever comes back is not
    the error of [_render_model]. *)
Theorem unsupported_likelihood_constructed_twice (lik : string)
    (pri : Priors) (seed seed' : PyVal) (w : World) (n : string) :
  let self := {| _likelihood := lik; _priors := pri |} in
  get_template (template_name self) = Raise (TemplateNotFound n) ->
  files w !! stan_path self = None ->
  let first := __init__ lik pri seed PyNone w in
  let second := __init__ lik pri seed' PyNone (fst first) in
  snd first = Raise (ValueError (unsupported_message self)) /\
  files (fst first) !! stan_path self = Some "" /\
  new_events (fst first) (fst second) =
    [EvCmdStanModel (ExeFile (PyStr (exe_path self)))] /\
  filter is_render (new_events (fst first) (fst second)) = [] /\
  snd second =
    match CmdStanModel (fst first) (ExeFile (PyStr (exe_path self))) with
    | Ok m => Ok {| cfg := self; model := m; _fit := None;
                    draws_cached := None; summary_cached := None |}
    | Raise e => Raise e
    end.
Proof.
  intros self Ht Hf first second.
  assert (E1 : first =
               (logged (EvGetTemplate (template_name self))
                  (opened (stan_path self) w),
                Raise (ValueError (unsupported_message self)))).
  { unfold first. rewrite init_compile. fold self.
    rewrite (compile_miss self PyNone w (or_intror Hf)).
    now rewrite (render_model_unsupported _ _ _ Ht). }
  assert (Hs : files (fst first) !! stan_path self = Some "").
  { rewrite E1. simpl. now rewrite lookup_insert_eq. }
  assert (E2 : second =
               match CmdStanModel (fst first)
                       (ExeFile (PyStr (exe_path self))) with
               | Ok m =>
                   (logged (EvCmdStanModel (ExeFile (PyStr (exe_path self))))
                      (fst first),
                    Ok {| cfg := self; model := m; _fit := None;
                          draws_cached := None; summary_cached := None |})
               | Raise e =>
                   (logged (EvCmdStanModel (ExeFile (PyStr (exe_path self))))
                      (fst first), Raise e)
               end).
  { unfold second. rewrite init_compile. fold self.
    rewrite (compile_hit self PyNone (fst first)); [| by rewrite Hs | done].
    destruct (CmdStanModel _ _); reflexivity. }
  split; [now rewrite E1 |]. split; [exact Hs |].
  rewrite E2.
  destruct (CmdStanModel (fst first) _); simpl;
    rewrite new_events_logged; repeat split.
Qed.

End CacheProperties.

(** ** The result accessors: [ABayes.draws], [summary], [inference_data] *)

Section AccessorProperties.
Context `{TC : Toolchain}.
Import ABayes.

Lemma unfit_accessors_raise (o : obj) (w : World) :
  unfit o ->
  draws (o, w) = ((o, w), Raise not_fit_yet) /\
  summary (o, w) = ((o, w), Raise not_fit_yet) /\
  inference_data (o, w) = ((o, w), Raise not_fit_yet).
Proof.
  intros (Hf & Hd & Hs).
  destruct o as [c m f d s]. simpl in Hf, Hd, Hs. subst f d s.
  repeat split.
Qed.

Lemma perform_keeps_unfit (c : call) (o : obj) (w : World) :
  unfit o ->
  fit_succeeded (snd (perform c (o, w))) = false ->
  unfit (fst (fst (perform c (o, w)))).
Proof.
  intros Hu Hn.
  destruct (unfit_accessors_raise o w Hu) as (Ed & Es & Ei).
  destruct c as [data kw | | |]; simpl in *.
  - destruct (fit_cases data kw) as [[e He] | (y1 & y2 & Hd & Hk)].
    + rewrite He. exact Hu.
    + rewrite (fit_two_groups _ _ _ _ _ _ Hd) in *.
      rewrite (fit_groups_submits _ _ _ _ _ Hk) in *. cbv zeta in *.
      destruct (sample w _ _ _); simpl in *; [discriminate | exact Hu].
  - rewrite Ed. exact Hu.
  - rewrite Es. exact Hu.
  - rewrite Ei. exact Hu.
Qed.

Lemma perform_all_keeps_unfit (cs : list call) (o : obj) (w : World) :
  unfit o ->
  forallb (fun a => negb (fit_succeeded a)) (snd (perform_all cs (o, w)))
    = true ->
  unfit (fst (fst (perform_all cs (o, w)))).
Proof.
  revert o w. induction cs as [| c cs IH]; intros o w Hu Hall.
  - exact Hu.
  - simpl in *.
    pose proof (perform_keeps_unfit c o w Hu) as Hc.
    destruct (perform c (o, w)) as [[o1 w1] a] eqn:Ec.
    specialize (IH o1 w1).
    destruct (perform_all cs (o1, w1)) as [st answers] eqn:Ecs.
    simpl in *. apply andb_prop in Hall as [Ha Hrest].
    apply IH; [| exact Hrest].
    apply Hc. now apply negb_true_iff.
Qed.

(** For [ABayes]: as long as no call of fit has succeeded, whatever else
    was tried, each of the three accessors raises the AttributeError of
    [_check_fit_exists] and leaves the instance as it is. *)
Lemma accessors_raise_before_first_fit (lik : string) (pri : Priors)
    (seed force : PyVal) (w0 w : World) (o : obj) (cs : list call) :
  __init__ lik pri seed force w0 = (w, Ok o) ->
  forallb (fun a => negb (fit_succeeded a)) (snd (perform_all cs (o, w)))
    = true ->
  let st := fst (perform_all cs (o, w)) in
  draws st = (st, Raise not_fit_yet) /\
  summary st = (st, Raise not_fit_yet) /\
  inference_data st = (st, Raise not_fit_yet) /\
  class_of not_fit_yet = AttributeErrorC.
Proof.
  intros Hi Hall st.
  apply init_cfg in Hi as [_ Hu].
  pose proof (perform_all_keeps_unfit cs o w Hu Hall) as Hu'.
  fold st in Hu'. destruct st as [o' w'].
  destruct (unfit_accessors_raise o' w' Hu') as (Ed & Es & Ei).
  now rewrite Ed, Es, Ei.
Qed.

Lemma summary_variables_members (self : config) :
  let variables := summary_variables self in
  (In "mu" variables /\ In "mu_diff" variables) /\
  (In "sigma" variables <-> _likelihood self = "normal") /\
  (In "sigma_diff" variables <-> _likelihood self = "normal") /\
  (In "mu_prob" variables <-> _likelihood self = "bernoulli") /\
  (In "mu_prob_diff" variables <-> _likelihood self = "bernoulli") /\
  (forall v, In v variables ->
     In v ["mu"; "mu_diff"; "sigma"; "sigma_diff"; "mu_prob";
           "mu_prob_diff"]).
Proof.
  unfold summary_variables.
  destruct (String.eqb_spec (_likelihood self) "normal") as [En | Nn];
    destruct (String.eqb_spec (_likelihood self) "bernoulli") as [Eb | Nb];
    try (rewrite En in Eb; discriminate); simpl;
    repeat split; try tauto; intros H;
    repeat (destruct H as [H | H]; try discriminate H;
            try (subst; tauto)); try discriminate.
Qed.

(** C6.  On a fitted instance the summary accessor asks arviz for the
    table of the list [variables] only: mu and mu_diff always, sigma and
    sigma_diff exactly when the likelihood is "normal", mu_prob and
    mu_prob_diff exactly when it is "bernoulli", and nothing else. *)
Theorem summary_restricted_to_variable_list (o : obj) (w : World)
    (r : MCMC) (idata : IData) :
  _fit o = Some r ->
  summary_cached o = None ->
  from_cmdstanpy w (Some r) = Ok idata ->
  let variables := summary_variables (cfg o) in
  snd (summary (o, w)) = az_summary w idata variables /\
  (In "mu" variables /\ In "mu_diff" variables) /\
  (In "sigma" variables <-> _likelihood (cfg o) = "normal") /\
  (In "sigma_diff" variables <-> _likelihood (cfg o) = "normal") /\
  (In "mu_prob" variables <-> _likelihood (cfg o) = "bernoulli") /\
  (In "mu_prob_diff" variables <-> _likelihood (cfg o) = "bernoulli") /\
  (forall v, In v variables ->
     In v ["mu"; "mu_diff"; "sigma"; "sigma_diff"; "mu_prob";
           "mu_prob_diff"]).
Proof.
  intros Hf Hc Hi variables. split.
  - destruct o as [c m f d s]. simpl in Hf, Hc, variables. subst f s.
    unfold summary, cached_property, inference_data, _check_fit_exists,
      cmdstan_mcmc.
    unfold_py. cbn [fst snd _fit summary_cached cfg]. rewrite Hi.
    fold variables.
    destruct (az_summary w idata variables); reflexivity.
  - apply summary_variables_members.
Qed.

Lemma cached_draws_returned (o : obj) (w : World) (v : Draws) :
  draws_cached o = Some v -> draws (o, w) = ((o, w), Ok v).
Proof.
  intros H. destruct o as [c m f d s]. simpl in H. now subst d.
Qed.

Lemma cached_summary_returned (o : obj) (w : World) (t : Table) :
  summary_cached o = Some t -> summary (o, w) = ((o, w), Ok t).
Proof.
  intros H. destruct o as [c m f d s]. simpl in H. now subst s.
Qed.

Lemma fit_keeps_caches (data : Data) (kw : Kwargs) (o : obj) (w : World) :
  let o' := fst (fst (fit data kw (o, w))) in
  draws_cached o' = draws_cached o /\ summary_cached o' = summary_cached o.
Proof.
  destruct (fit_cases data kw) as [[e He] | (y1 & y2 & Hd & Hk)].
  - rewrite He. now split.
  - rewrite (fit_two_groups _ _ _ _ _ _ Hd).
    rewrite (fit_groups_submits _ _ _ _ _ Hk). cbv zeta.
    destruct (sample w _ _ _); now split.
Qed.

(** Once read, draws and summary keep their first value through every
    later fit, whatever the sampler returns then. *)
Lemma cached_results_survive_refit (data : Data) (kw : Kwargs) (o : obj)
    (w : World) (v : Draws) (t : Table) :
  draws_cached o = Some v ->
  summary_cached o = Some t ->
  let st := fst (fit data kw (o, w)) in
  draws st = (st, Ok v) /\ summary st = (st, Ok t).
Proof.
  intros Hd Hs st.
  destruct (fit_keeps_caches data kw o w) as [Kd Ks].
  fold st in Kd, Ks. destruct st as [o' w']. simpl in *.
  split; [apply cached_draws_returned | apply cached_summary_returned];
    congruence.
Qed.

End AccessorProperties.

(** ** [MiniAb] *)

Section MiniAbProperties.
Context `{TC : Toolchain}.

Lemma MiniAb_render_model_raises (self : MiniAb.config) (w : World) :
  MiniAb._render_model self w = (w, Raise (NameError "TemplateNotFoundError")).
Proof. reflexivity. Qed.

Lemma MiniAb_compile_miss (self : MiniAb.config) (w : World) :
  let path := CACHE_LOCATION +:+ "/" +:+ MiniAb._hash self in
  files w !! path = None ->
  MiniAb.compile self w =
    (opened path w, Raise (NameError "TemplateNotFoundError")).
Proof.
  intros path Hf.
  unfold MiniAb.compile, in_listdir. unfold_py. fold path.
  rewrite bool_decide_eq_false_2; [reflexivity |].
  rewrite Hf. now intros [x Hx].
Qed.

(** C2, at the failing input.  When the cache has no file named after the
    fingerprint, [MiniAb.compile] creates that file empty and then stops
    with a NameError inside [_render_model]: no model is rendered, no
    source text is stored and the compiler is never called. *)
Theorem MiniAb_compile_miss_stops (self : MiniAb.config) (w : World) :
  let path := CACHE_LOCATION +:+ "/" +:+ MiniAb._hash self in
  files w !! path = None ->
  MiniAb.compile self w =
    (opened path w, Raise (NameError "TemplateNotFoundError")) /\
  files (fst (MiniAb.compile self w)) !! path = Some "" /\
  new_events w (fst (MiniAb.compile self w)) = [EvOpenW path].
Proof.
  intros path Hf.
  pose proof (MiniAb_compile_miss self w Hf) as E. fold path in E.
  rewrite E. simpl. repeat split.
  - now rewrite lookup_insert_eq.
  - unfold new_events. simpl.
    now rewrite skipn_app, skipn_all, Nat.sub_diag.
Qed.

(** With [MiniAb] the constructor fails in the same way for every
    likelihood, supported or not. *)
Lemma MiniAb_init_miss (lik : string) (pri : Priors) (w : World) :
  files w !! (CACHE_LOCATION +:+ "/" +:+ "1234") = None ->
  snd (MiniAb.__init__ lik pri w) = Raise (NameError "TemplateNotFoundError").
Proof.
  intros Hf. unfold MiniAb.__init__. unfold_py.
  now rewrite (MiniAb_compile_miss _ w Hf).
Qed.

(** C3, at the failing input.  The fingerprint of [MiniAb] is the text
    1234 for every configuration: it depends neither on the priors nor on
    the likelihood. *)
Theorem MiniAb_hash_ignores_configuration (c1 c2 : MiniAb.config) :
  MiniAb._hash c1 = "1234" /\ MiniAb._hash c1 = MiniAb._hash c2.
Proof. split; reflexivity. Qed.

(** [MiniAb.samples] raises an AttributeError, fitted or not. *)
Lemma MiniAb_samples_raises (o : MiniAb.obj) (w : World) :
  MiniAb.samples (o, w) = ((o, w), Raise (MissingAttribute "stan_variables"))
  /\ class_of (MissingAttribute "stan_variables") = AttributeErrorC.
Proof. split; reflexivity. Qed.

(** C5, at the failing input.  Reading [summary] on a [MiniAb] instance
    raises nothing: it returns None and changes nothing, fitted or not. *)
Theorem MiniAb_summary_returns_None (o : MiniAb.obj) (w : World) :
  MiniAb.summary (o, w) = ((o, w), Ok PyNone).
Proof. reflexivity. Qed.

End MiniAbProperties.

(** ** The embedding at work on the small toolchain *)

Section Examples.
Import Toy.

Lemma construction_outcome : snd construction = Ok fresh.
Proof. vm_compute. reflexivity. Qed.

(** The fingerprint of [ABayes] is the MD5 digest that Python prints for
    the default configuration, and it moves with either component; it
    also moves with the insertion order of the priors. *)
Lemma ABayes_hash_default :
  ABayes._hash normal_cfg = "09c3d19c5da2b97b7ba18fbd5661ac32".
Proof. vm_compute. reflexivity. Qed.

Lemma ABayes_hash_depends_on_likelihood :
  ABayes._hash normal_cfg <> ABayes._hash poisson_cfg.
Proof. vm_compute. discriminate. Qed.

Lemma ABayes_hash_depends_on_priors :
  ABayes._hash normal_cfg <>
  ABayes._hash {| ABayes._likelihood := "normal";
                  ABayes._priors := [("mu", "normal(0, 2)");
                                     ("sigma", "normal(0, 1)")] |}.
Proof. vm_compute. discriminate. Qed.

Lemma ABayes_hash_depends_on_insertion_order :
  ABayes._hash normal_cfg <>
  ABayes._hash {| ABayes._likelihood := "normal";
                  ABayes._priors := swapped_priors |}.
Proof. vm_compute. discriminate. Qed.

(** C1 as stated fails when the caller passes show_console itself: the
    call of the sampler is a TypeError before the sampler runs, and
    nothing is submitted. *)
Lemma fit_with_show_console_option :
  two_groups example_data = Some (control, treatment) /\
  ABayes.fit example_data [("show_console", PyBool false)] (fresh, home) =
    ((fresh, home), Raise (DuplicateKeyword "show_console")) /\
  class_of (DuplicateKeyword "show_console") = TypeErrorC /\
  new_events home
    (snd (fst (ABayes.fit example_data [("show_console", PyBool false)]
                 (fresh, home)))) = [].
Proof.
  split; [reflexivity |].
  assert (E : ABayes.fit example_data [("show_console", PyBool false)]
                (fresh, home) =
              ((fresh, home), Raise (DuplicateKeyword "show_console")))
    by reflexivity.
  rewrite E. split; [reflexivity |]. split; [reflexivity |].
  apply new_events_same.
Qed.

Lemma fit_submits_combined_record_witness :
  two_groups example_data = Some (control, treatment) /\
  has_key "show_console" ([] : Kwargs) = false /\
  data_N (record_of control treatment) = 10 /\
  data_j (record_of control treatment) = [1; 1; 1; 1; 1; 2; 2; 2; 2; 2] /\
  ABayes.fit example_data [] (fresh, home) =
    ((ABayes.set_fit (10, [1; 1; 1; 1; 1; 2; 2; 2; 2; 2]) fresh,
      logged (EvSample (ABayes.model fresh) (record_of control treatment)
                [("show_console", PyBool true)]) home),
     Ok tt).
Proof.
  split; [reflexivity |]. split; [reflexivity |].
  split; [reflexivity |]. split; [reflexivity |].
  exact (proj1 (fit_submits_combined_record fresh home example_data
                  control treatment [] eq_refl eq_refl)).
Defined.

Lemma fit_rejects_other_group_counts_witness :
  group_count (DSeq [control; treatment; control]) = Some 3%nat /\
  3%nat <> 2%nat /\
  ABayes.fit (DSeq [control; treatment; control]) [] (fresh, home) =
    ((fresh, home), Raise (UnpackError 3)).
Proof.
  split; [reflexivity |]. split; [lia |].
  apply (fit_rejects_other_group_counts fresh home
           (DSeq [control; treatment; control]) [] 3%nat);
    [reflexivity | lia].
Defined.

Lemma seed_has_no_effect_witness :
  ABayes.__init__ "normal" ABayes.DEFAULT_PRIORS PyNone PyNone empty_world =
    (home, Ok fresh) /\
  ABayes.__init__ "normal" ABayes.DEFAULT_PRIORS (PyInt 42) PyNone home =
    (logged (EvCmdStanModel (ExeFile (PyStr (exe_path normal_cfg)))) home,
     Ok reloaded) /\
  ABayes._hash (ABayes.cfg fresh) = ABayes._hash (ABayes.cfg reloaded) /\
  (forall data kw wa wb,
      map sample_request
          (new_events wa (snd (fst (ABayes.fit data kw (fresh, wa))))) =
      map sample_request
          (new_events wb (snd (fst (ABayes.fit data kw (reloaded, wb)))))).
Proof.
  assert (H1 : ABayes.__init__ "normal" ABayes.DEFAULT_PRIORS PyNone PyNone
                 empty_world = (home, Ok fresh))
    by (vm_compute; reflexivity).
  assert (H2 : ABayes.__init__ "normal" ABayes.DEFAULT_PRIORS (PyInt 42)
                 PyNone home =
               (logged (EvCmdStanModel (ExeFile (PyStr (exe_path normal_cfg))))
                  home, Ok reloaded))
    by (vm_compute; reflexivity).
  split; [exact H1 |]. split; [exact H2 |].
  destruct (seed_has_no_effect _ _ _ _ _ _ _ _ _ _ _ _ H1 H2)
    as (_ & Hh & _ & Hf).
  split; [exact Hh | exact Hf].
Defined.

Lemma unsupported_likelihood_constructed_twice_witness :
  get_template (template_name poisson_cfg) =
    Raise (TemplateNotFound "distributions/poisson.stan") /\
  files empty_world !! stan_path poisson_cfg = None /\
  snd (ABayes.__init__ "poisson" ABayes.DEFAULT_PRIORS PyNone PyNone
         empty_world) =
    Raise (ValueError (ABayes.unsupported_message poisson_cfg)) /\
  snd (ABayes.__init__ "poisson" ABayes.DEFAULT_PRIORS PyNone PyNone
         (fst (ABayes.__init__ "poisson" ABayes.DEFAULT_PRIORS PyNone PyNone
                 empty_world))) =
    Raise (External "no such file /cache/fb79d5a853c26ddd433ca6fbe6d4e533").
Proof.
  assert (Ht : get_template (template_name poisson_cfg) =
               Raise (TemplateNotFound "distributions/poisson.stan"))
    by reflexivity.
  assert (Hf : files empty_world !! stan_path poisson_cfg = None)
    by reflexivity.
  split; [exact Ht |]. split; [exact Hf |].
  destruct (unsupported_likelihood_constructed_twice "poisson"
              ABayes.DEFAULT_PRIORS PyNone PyNone empty_world _ Ht Hf)
    as (H1 & _ & _ & _ & H2).
  split; [exact H1 |].
  rewrite H2. vm_compute. reflexivity.
Defined.

Lemma summary_restricted_to_variable_list_witness :
  ABayes._fit bernoulli_fitted = Some (10, ten_labels) /\
  ABayes.summary_cached bernoulli_fitted = None /\
  from_cmdstanpy empty_world (Some (10, ten_labels)) = Ok (10, ten_labels) /\
  snd (ABayes.summary (bernoulli_fitted, empty_world)) =
    Ok ((10, ten_labels), ["mu"; "mu_diff"; "mu_prob"; "mu_prob_diff"]) /\
  In "mu_prob" (ABayes.summary_variables bernoulli_cfg) /\
  In "mu_prob_diff" (ABayes.summary_variables bernoulli_cfg).
Proof.
  assert (Hi : from_cmdstanpy empty_world (Some (10, ten_labels)) =
               Ok (10, ten_labels)) by reflexivity.
  split; [reflexivity |]. split; [reflexivity |]. split; [exact Hi |].
  destruct (summary_restricted_to_variable_list bernoulli_fitted empty_world
              (10, ten_labels) (10, ten_labels) eq_refl eq_refl Hi)
    as (Hs & _ & _ & _ & Hp & Hpd & _).
  split; [exact Hs |].
  split; [apply Hp | apply Hpd]; reflexivity.
Defined.

Lemma MiniAb_compile_miss_stops_witness :
  files empty_world !! (CACHE_LOCATION +:+ "/" +:+
                        MiniAb._hash {| MiniAb._likelihood := "normal";
                                        MiniAb._priors := MiniAb.DEFAULT_PRIORS |})
    = None /\
  MiniAb.compile {| MiniAb._likelihood := "normal";
                    MiniAb._priors := MiniAb.DEFAULT_PRIORS |} empty_world =
    (opened "/cache/1234" empty_world,
     Raise (NameError "TemplateNotFoundError")).
Proof.
  split; [reflexivity |].
  exact (proj1 (MiniAb_compile_miss_stops
                  {| MiniAb._likelihood := "normal";
                     MiniAb._priors := MiniAb.DEFAULT_PRIORS |}
                  empty_world eq_refl)).
Defined.

(** C7, at the failing input.  Fit, read the three accessors, fit other
    data, read them again: the stored fit is the second one and
    inference_data shows it, but draws and summary still return what they
    returned after the first fit. *)
Theorem refit_leaves_cached_results_stale :
  let run := perform_all fit_read_refit_read (fresh, home) in
  ABayes._fit (fst (fst run)) = Some (3, [1; 2; 2]) /\
  snd run =
    [FitAnswer (Ok tt);
     DrawsAnswer (Ok (10, ten_labels));
     SummaryAnswer
       (Ok ((10, ten_labels), ["mu"; "mu_diff"; "sigma"; "sigma_diff"]));
     InferenceDataAnswer (Ok (10, ten_labels));
     FitAnswer (Ok tt);
     DrawsAnswer (Ok (10, ten_labels));
     SummaryAnswer
       (Ok ((10, ten_labels), ["mu"; "mu_diff"; "sigma"; "sigma_diff"]));
     InferenceDataAnswer (Ok (3, [1; 2; 2]))].
Proof. vm_compute. split; reflexivity. Qed.

End Examples.


(** * Further properties of the code *)

(** ** The fingerprint of [ABayes]: [_hash] *)

Section HashProperties.

Lemma app_cons (x : ascii) (a b : string) :
  String x a +:+ b = String x (a +:+ b).
Proof. reflexivity. Qed.

Lemma app_nil (b : string) : "" +:+ b = b.
Proof. reflexivity. Qed.

Ltac str_simpl := rewrite ?app_cons, ?app_nil.
Ltac str_simpl_in H := rewrite ?app_cons, ?app_nil in H.

Lemma str_app_assoc (a b c : string) : (a +:+ b) +:+ c = a +:+ (b +:+ c).
Proof.
  induction a as [| x a IH]; str_simpl; [reflexivity | f_equal; exact IH].
Qed.

Lemma str_app_inv_head (a b c : string) : a +:+ b = a +:+ c -> b = c.
Proof.
  induction a as [| x a IH]; str_simpl; [easy |].
  intros H. injection H as H. now apply IH.
Qed.

Lemma length_le_bytes (n : nat) (x : Z) : length (MD5.le_bytes n x) = n.
Proof. unfold MD5.le_bytes. now rewrite length_map, length_seq. Qed.

Lemma le_bytes_range (n : nat) (x : Z) :
  Forall (fun b => 0 <= b < 256) (MD5.le_bytes n x).
Proof.
  unfold MD5.le_bytes. apply List.Forall_forall. intros b Hb.
  apply in_map_iff in Hb as (i & <- & _).
  apply Z.mod_pos_bound. lia.
Qed.

Lemma digest_shape (msg : list Z) :
  length (MD5.digest msg) = 16%nat /\
  Forall (fun b => 0 <= b < 256) (MD5.digest msg).
Proof.
  unfold MD5.digest. cbv zeta. split.
  - now rewrite !length_app, !length_le_bytes.
  - repeat (apply Forall_app; split); apply le_bytes_range.
Qed.

Lemma hex_digit_is_hex (n : Z) :
  0 <= n < 16 -> is_hex_digit (Json.hex_digit n) = true.
Proof.
  intros H.
  assert (Hn : In n [0; 1; 2; 3; 4; 5; 6; 7; 8; 9; 10; 11; 12; 13; 14; 15])
    by (simpl; lia).
  simpl in Hn.
  repeat (destruct Hn as [<- | Hn]; [reflexivity |]). contradiction.
Qed.

Lemma hex_shape (bs : list Z) :
  Forall (fun b => 0 <= b < 256) bs ->
  String.length (MD5.hex bs) = (2 * length bs)%nat /\
  string_forall is_hex_digit (MD5.hex bs) = true.
Proof.
  induction 1 as [| b bs Hb _ [IHl IHd]]; [split; reflexivity |].
  cbn [MD5.hex]. unfold MD5.hex_byte, str1. str_simpl.
  cbn [String.length string_forall length]. split; [rewrite IHl; lia |].
  rewrite !hex_digit_is_hex, IHd; [reflexivity | |].
  - apply Z.mod_pos_bound. lia.
  - split; [apply Z.div_pos; lia | apply Z.div_lt_upper_bound; lia].
Qed.

(** X1.  Whatever the likelihood and the priors, the fingerprint is a text
    of exactly 32 characters, each a digit or one of a to f; in particular
    the cache file name built from it holds no path separator. *)
Theorem hash_is_32_hex_digits (self : ABayes.config) :
  String.length (ABayes._hash self) = 32%nat /\
  string_forall is_hex_digit (ABayes._hash self) = true.
Proof.
  unfold ABayes._hash, MD5.hexdigest.
  destruct (digest_shape
              (MD5.encode (Json.dumps_pair (ABayes.priors self)
                                           (ABayes.likelihood self))))
    as [Hl Hr].
  destruct (hex_shape _ Hr) as [Hlen Hd].
  split; [rewrite Hlen, Hl; reflexivity | exact Hd].
Qed.

Lemma unescape_escape_char (c : ascii) (rest : string) :
  unescape_head (Json.escape_char c +:+ rest) = Some (c, rest).
Proof.
  destruct c as [[] [] [] [] [] [] [] []]; reflexivity.
Qed.

Lemma unescape_quote (rest : string) :
  unescape_head (String dquote rest) = None.
Proof. reflexivity. Qed.

(** An escaped text followed by the closing quote can be read in one way
    only. *)
Lemma escape_delimited (s1 s2 r1 r2 : string) :
  Json.escape s1 +:+ String dquote r1 = Json.escape s2 +:+ String dquote r2 ->
  s1 = s2 /\ r1 = r2.
Proof.
  revert s2. induction s1 as [| c1 s1 IH]; intros [| c2 s2] H;
    cbn [Json.escape] in H; str_simpl_in H.
  - injection H as ->. now split.
  - rewrite str_app_assoc in H. apply (f_equal unescape_head) in H.
    rewrite unescape_escape_char, unescape_quote in H. discriminate.
  - rewrite str_app_assoc in H. apply (f_equal unescape_head) in H.
    rewrite unescape_escape_char, unescape_quote in H. discriminate.
  - rewrite !str_app_assoc in H. apply (f_equal unescape_head) in H.
    rewrite !unescape_escape_char in H. injection H as -> H.
    destruct (IH _ H) as [-> ->]. now split.
Qed.

Lemma dumps_str_delimited (s1 s2 r1 r2 : string) :
  Json.dumps_str s1 +:+ r1 = Json.dumps_str s2 +:+ r2 ->
  s1 = s2 /\ r1 = r2.
Proof.
  unfold Json.dumps_str, str1. str_simpl. rewrite !str_app_assoc. str_simpl.
  intros H. injection H as H. now apply escape_delimited.
Qed.

Lemma dumps_items_cons (k v : string) (rest : list (string * string))
    (r : string) :
  Json.dumps_items ((k, v) :: rest) +:+ r =
    Json.dumps_str k +:+ (": " +:+ (Json.dumps_str v +:+
      match rest with
      | [] => r
      | _ :: _ => ", " +:+ (Json.dumps_items rest +:+ r)
      end)).
Proof.
  destruct rest as [| kv rest]; cbn [Json.dumps_items];
    rewrite !str_app_assoc; reflexivity.
Qed.

Lemma dumps_items_head (kvs : list (string * string)) (r : string) :
  kvs <> [] ->
  exists t, Json.dumps_items kvs +:+ r = String dquote t.
Proof.
  destruct kvs as [| [k v] rest]; [congruence |]. intros _.
  rewrite dumps_items_cons. unfold Json.dumps_str. str_simpl. eauto.
Qed.

Lemma dumps_items_delimited (d1 d2 : list (string * string))
    (r1 r2 : string) :
  Json.dumps_items d1 +:+ String "}" r1 = Json.dumps_items d2 +:+ String "}" r2 ->
  d1 = d2 /\ r1 = r2.
Proof.
  revert d2. induction d1 as [| [k1 v1] d1 IH]; intros [| [k2 v2] d2] H.
  - cbn [Json.dumps_items] in H. str_simpl_in H. injection H as ->.
    now split.
  - destruct (dumps_items_head ((k2, v2) :: d2) (String "}" r2)) as [t Ht];
      [discriminate |].
    rewrite Ht in H. cbn [Json.dumps_items] in H. str_simpl_in H.
    discriminate.
  - destruct (dumps_items_head ((k1, v1) :: d1) (String "}" r1)) as [t Ht];
      [discriminate |].
    rewrite Ht in H. cbn [Json.dumps_items] in H. str_simpl_in H.
    discriminate.
  - rewrite !dumps_items_cons in H.
    apply dumps_str_delimited in H as [-> H].
    apply str_app_inv_head in H.
    apply dumps_str_delimited in H as [-> H].
    destruct d1 as [| kv1 d1], d2 as [| kv2 d2].
    + injection H as ->. now split.
    + str_simpl_in H. discriminate.
    + str_simpl_in H. discriminate.
    + apply str_app_inv_head in H.
      destruct (IH _ H) as [E ->]. rewrite E. now split.
Qed.


End HashProperties.

(** ** Rendering and compiling in [ABayes], beyond the cache policy *)

Section RenderProperties.
Context `{TC : Toolchain}.
Import ABayes.

Lemma render_model_files (self : config) (w : World) :
  files (fst (_render_model self w)) = files w.
Proof.
  unfold _render_model. unfold_py.
  destruct (get_template _) as [t | e]; simpl.
  - destruct (render t (priors self)); reflexivity.
  - destruct e; reflexivity.
Qed.

(** X3.  For a likelihood without a template, [_render_model] raises a
    ValueError whose text holds the likelihood exactly as it was given and
    the printed list of available likelihoods; it changes no file, and a
    construction that reaches the rendering (no cached source file, or
    forced) fails with that same error. *)
Theorem unsupported_likelihood_error (lik : string) (pri : Priors)
    (seed force : PyVal) (w : World) (n : string) :
  let self := {| _likelihood := lik; _priors := pri |} in
  let message :=
    "Cannot build model for likelihood " +:+ lik +:+ "." +:+ str1 newline
      +:+ "Likelihoods available are " +:+ LIKELIHOODS_str +:+ "." in
  get_template (template_name self) = Raise (TemplateNotFound n) ->
  truthy force = true \/ files w !! stan_path self = None ->
  snd (_render_model self w) = Raise (ValueError message) /\
  class_of (ValueError message) = ValueErrorC /\
  files (fst (_render_model self w)) = files w /\
  snd (__init__ lik pri seed force w) = Raise (ValueError message).
Proof.
  intros self message Ht Hm.
  rewrite (render_model_unsupported self w n Ht). simpl.
  repeat split.
  rewrite init_compile. fold self.
  rewrite (compile_miss self force w Hm).
  now rewrite (render_model_unsupported self _ n Ht).
Qed.

(** X4.  Only TemplateNotFound is turned into the ValueError: any other
    error of the template lookup, and any error of the rendering itself,
    leaves [_render_model] as it was raised. *)
Theorem render_model_propagates_other_errors (self : config) (w : World)
    (e : exn) :
  (get_template (template_name self) = Raise e /\
   forall n, e <> TemplateNotFound n) \/
  (exists t, get_template (template_name self) = Ok t /\
             render t (_priors self) = Raise e) ->
  snd (_render_model self w) = Raise e /\
  files (fst (_render_model self w)) = files w.
Proof.
  intros H. split; [| apply render_model_files].
  destruct H as [[Hg Hn] | (t & Hg & Hr)].
  - unfold _render_model. fold (template_name self). unfold_py.
    rewrite Hg. destruct e; try reflexivity. now destruct (Hn name).
  - now rewrite (render_model_supported self w t Hg), Hr.
Qed.

Lemma lower_char_idempotent (c : ascii) :
  lower_char (lower_char c) = lower_char c.
Proof. destruct c as [[] [] [] [] [] [] [] []]; reflexivity. Qed.

Lemma lower_idempotent (s : string) : lower (lower s) = lower s.
Proof.
  induction s as [| c s IH]; simpl; [reflexivity |].
  now rewrite lower_char_idempotent, IH.
Qed.

(** X5.  The template is chosen by the lower-cased likelihood: a
    likelihood and its lower-cased form look up the same template, and when
    that template exists they render to the same outcome. *)
Theorem render_model_ignores_case (lik : string) (pri : Priors) (w : World)
    (t : Template) :
  let self := {| _likelihood := lik; _priors := pri |} in
  let lowered := {| _likelihood := lower lik; _priors := pri |} in
  get_template (template_name self) = Ok t ->
  template_name lowered = template_name self /\
  _render_model lowered w = _render_model self w.
Proof.
  intros self lowered Ht.
  assert (En : template_name lowered = template_name self).
  { unfold template_name, lowered, self. simpl. now rewrite lower_idempotent. }
  split; [exact En |].
  rewrite (render_model_supported self w t Ht).
  rewrite (render_model_supported lowered w t); [now rewrite En |].
  now rewrite En.
Qed.

(** X6.  With the source file of the fingerprint in the cache and no
    forcing, [compile] does one thing: it asks cmdstanpy for the executable
    of the fingerprint and returns its answer.  No file is opened or
    written, no template is looked up or rendered. *)
Theorem compile_reuses_cached_artifact (self : config) (force : PyVal)
    (w : World) :
  is_Some (files w !! stan_path self) ->
  truthy force = false ->
  let after := fst (compile self force w) in
  snd (compile self force w) =
    CmdStanModel w (ExeFile (PyStr (exe_path self))) /\
  files after = files w /\
  new_events w after = [EvCmdStanModel (ExeFile (PyStr (exe_path self)))].
Proof.
  intros Hf Ht after. unfold after.
  rewrite (compile_hit self force w Hf Ht). simpl.
  repeat split. apply new_events_logged.
Qed.

(** X7.  Without a cached source file, or when forced, and with a template
    that renders to [text]: [compile] leaves exactly [text] in the file
    named after the fingerprint, whatever that file held before, and
    returns the answer of cmdstanpy for that source file; the calls are, in
    this order, open, template lookup, render, write, CmdStanModel. *)
Theorem compile_writes_rendered_source (self : config) (force : PyVal)
    (w : World) (t : Template) (text : string) :
  truthy force = true \/ files w !! stan_path self = None ->
  get_template (template_name self) = Ok t ->
  render t (_priors self) = Ok text ->
  let after := fst (compile self force w) in
  files after !! stan_path self = Some text /\
  new_events w after =
    [EvOpenW (stan_path self);
     EvGetTemplate (template_name self);
     EvRender t (_priors self);
     EvWrite (stan_path self) text;
     EvCmdStanModel (StanFile (PyStr (stan_path self)))] /\
  exists w3,
    files w3 = files after /\
    snd (compile self force w) =
      CmdStanModel w3 (StanFile (PyStr (stan_path self))).
Proof.
  intros Hm Ht Hr after. unfold after.
  destruct (compile_miss_rendered self force w t text Hm Ht Hr)
    as (w3 & -> & Hfile & Hlog).
  simpl. split; [exact Hfile |]. split.
  - unfold new_events. simpl. rewrite Hlog, <- app_assoc.
    now rewrite skipn_app, skipn_all, Nat.sub_diag.
  - exists w3. now split.
Qed.

Lemma compile_files (self : config) (force : PyVal) (w : World) :
  files (fst (compile self force w)) = files w /\
  is_Some (files w !! stan_path self) \/
  exists text,
    files (fst (compile self force w)) =
      <[stan_path self := text]> (files w).
Proof.
  destruct (truthy force) eqn:Ht.
  - right. rewrite (compile_miss self force w (or_introl Ht)).
    pose proof (render_model_files self (opened (stan_path self) w)) as Hr.
    destruct (_render_model self (opened (stan_path self) w))
      as [w2 [text | e]]; simpl in *.
    + eexists. rewrite Hr. simpl. now rewrite insert_insert_eq.
    + eexists. rewrite Hr. reflexivity.
  - destruct (files w !! stan_path self) as [old |] eqn:Hf.
    + left. rewrite (compile_hit self force w); [| by rewrite Hf | exact Ht].
      split; [reflexivity | by eexists].
    + right. rewrite (compile_miss self force w (or_intror Hf)).
      pose proof (render_model_files self (opened (stan_path self) w)) as Hr.
      destruct (_render_model self (opened (stan_path self) w))
        as [w2 [text | e]]; simpl in *.
      * eexists. rewrite Hr. simpl. now rewrite insert_insert_eq.
      * eexists. rewrite Hr. reflexivity.
Qed.

(** X8.  After any call of [compile], successful or not, the cache holds
    a source file for the fingerprint; so a later call for the same
    configuration that is not forced renders nothing and only asks for the
    executable. *)
Theorem compile_never_renders_twice (self : config) (force : PyVal)
    (w : World) :
  let w1 := fst (compile self force w) in
  is_Some (files w1 !! stan_path self) /\
  compile self PyNone w1 =
    (logged (EvCmdStanModel (ExeFile (PyStr (exe_path self)))) w1,
     CmdStanModel w1 (ExeFile (PyStr (exe_path self)))).
Proof.
  intros w1.
  assert (Hs : is_Some (files w1 !! stan_path self)).
  { unfold w1. destruct (compile_files self force w) as [[-> Hf] | [text ->]].
    - exact Hf.
    - rewrite lookup_insert_eq. by eexists. }
  split; [exact Hs | now apply compile_hit].
Qed.


End RenderProperties.

(** ** Fitting and reading results in [ABayes], beyond the claims *)

Section RunProperties.
Context `{TC : Toolchain}.
Import ABayes.

(** X10.  For [ABayes]: after a construction and any calls among which no
    fit succeeded, each of draws, summary and inference_data raises the
    AttributeError of [_check_fit_exists] and changes nothing. *)
Theorem accessors_need_a_successful_fit (lik : string) (pri : Priors)
    (seed force : PyVal) (w0 w : World) (o : obj) (cs : list call) :
  __init__ lik pri seed force w0 = (w, Ok o) ->
  forallb (fun a => negb (fit_succeeded a)) (snd (perform_all cs (o, w)))
    = true ->
  let st := fst (perform_all cs (o, w)) in
  draws st = (st, Raise not_fit_yet) /\
  summary st = (st, Raise not_fit_yet) /\
  inference_data st = (st, Raise not_fit_yet) /\
  class_of not_fit_yet = AttributeErrorC.
Proof.
  intros Hi Hall st.
  apply init_cfg in Hi as [_ Hu].
  pose proof (perform_all_keeps_unfit cs o w Hu Hall) as Hu'.
  fold st in Hu'. destruct st as [o' w'].
  destruct (unfit_accessors_raise o' w' Hu') as (Ed & Es & Ei).
  now rewrite Ed, Es, Ei.
Qed.

(** X11.  When the sampler raises, [fit] raises the same error and the
    instance is exactly as before, an earlier fit result included; only
    the call to the sampler is on record. *)
Theorem fit_sampler_failure_keeps_previous_fit (o : obj) (w : World)
    (data : Data) (y1 y2 : Vector) (kw : Kwargs) (e : exn) :
  two_groups data = Some (y1, y2) ->
  has_key "show_console" kw = false ->
  sample w (model o) (record_of y1 y2)
    (kw ++ [("show_console", PyBool true)]) = Raise e ->
  fit data kw (o, w) =
    ((o, logged (EvSample (model o) (record_of y1 y2)
                   (kw ++ [("show_console", PyBool true)])) w),
     Raise e).
Proof.
  intros Hd Hk Hs.
  rewrite (fit_two_groups _ _ _ _ _ _ Hd).
  rewrite (fit_groups_submits _ _ _ _ _ Hk). cbv zeta.
  now rewrite Hs.
Qed.

Lemma fit_frame (data : Data) (kw : Kwargs) (o : obj) (w : World) :
  let st := fst (fit data kw (o, w)) in
  files (snd st) = files w /\
  cfg (fst st) = cfg o /\
  model (fst st) = model o /\
  draws_cached (fst st) = draws_cached o /\
  summary_cached (fst st) = summary_cached o /\
  (_fit (fst st) = _fit o \/ exists r, _fit (fst st) = Some r) /\
  (new_events w (snd st) = [] \/
   exists c k, new_events w (snd st) = [EvSample (model o) c k]).
Proof.
  destruct (fit_cases data kw) as [[e He] | (y1 & y2 & Hd & Hk)].
  - rewrite He. simpl. repeat split; auto.
    left. apply new_events_same.
  - rewrite (fit_two_groups _ _ _ _ _ _ Hd).
    rewrite (fit_groups_submits _ _ _ _ _ Hk). cbv zeta.
    destruct (sample w _ _ _); simpl; repeat split; eauto;
      right; do 2 eexists; apply new_events_logged.
Qed.



Lemma draws_cases (o : obj) (w : World) :
  (exists v, draws_cached o = Some v /\ draws (o, w) = ((o, w), Ok v)) \/
  (exists v, draws_cached o = None /\
             draws (o, w) = ((store_draws v o, w), Ok v)) \/
  (exists e, draws_cached o = None /\ draws (o, w) = ((o, w), Raise e)).
Proof.
  destruct o as [c m f d s]. destruct d as [v |].
  - left. exists v. now split.
  - right. unfold draws, cached_property, _check_fit_exists.
    unfold_py. simpl. destruct f as [r |]; simpl.
    + destruct (stan_variables w r) as [v | e]; [left | right];
        eexists; split; reflexivity.
    + right. eexists. split; reflexivity.
Qed.

Lemma inference_data_cases (o : obj) (w : World) :
  inference_data (o, w) =
    ((o, w), match _fit o with
             | Some r => from_cmdstanpy w (Some r)
             | None => Raise not_fit_yet
             end).
Proof.
  destruct o as [c m f d s].
  unfold inference_data, _check_fit_exists, cmdstan_mcmc. unfold_py.
  simpl. destruct f as [r |]; simpl; [| reflexivity].
  destruct (from_cmdstanpy w (Some r)); reflexivity.
Qed.

Lemma summary_cases (o : obj) (w : World) :
  (exists t, summary_cached o = Some t /\ summary (o, w) = ((o, w), Ok t)) \/
  (exists t, summary_cached o = None /\
             summary (o, w) = ((store_summary t o, w), Ok t)) \/
  (exists e, summary_cached o = None /\ summary (o, w) = ((o, w), Raise e)).
Proof.
  destruct (summary_cached o) as [t |] eqn:Hc.
  - left. exists t. split; [reflexivity |].
    now apply cached_summary_returned.
  - right. pose proof (inference_data_cases o w) as Hi.
    destruct o as [c m f d s]. simpl in Hc. subst s.
    unfold summary, cached_property, _check_fit_exists.
    unfold_py. cbn [fst snd _fit summary_cached cfg].
    destruct f as [r |]; cbn [fst snd].
    + unfold bind in Hi. rewrite Hi. cbn [_fit fst snd].
      destruct (from_cmdstanpy w (Some r)) as [i | e]; cbn [fst snd].
      * destruct (az_summary w i _) as [t | e]; [left | right];
          eexists; split; reflexivity.
      * right. eexists. split; reflexivity.
    + right. eexists. split; reflexivity.
Qed.


(** X15.  No accessor changes the world, the stored fit, the model or the
    configuration; inference_data changes nothing at all, and draws and
    summary change the instance only by storing the value they return: an
    accessor that raises leaves everything as it was. *)
Theorem accessors_only_cache (o : obj) (w : World) :
  fst (inference_data (o, w)) = (o, w) /\
  (forall e, snd (draws (o, w)) = Raise e -> fst (draws (o, w)) = (o, w)) /\
  (forall e, snd (summary (o, w)) = Raise e ->
             fst (summary (o, w)) = (o, w)) /\
  (forall v, snd (draws (o, w)) = Ok v ->
             fst (draws (o, w)) = (o, w) \/
             fst (draws (o, w)) = (store_draws v o, w)) /\
  (forall t, snd (summary (o, w)) = Ok t ->
             fst (summary (o, w)) = (o, w) \/
             fst (summary (o, w)) = (store_summary t o, w)).
Proof.
  split; [now rewrite inference_data_cases |].
  destruct (draws_cases o w)
    as [(v' & Hc & Ed) | [(v' & Hc & Ed) | (e' & Hc & Ed)]];
    destruct (summary_cases o w)
      as [(t' & Hc' & Es) | [(t' & Hc' & Es) | (e'' & Hc' & Es)]];
    rewrite Ed, Es; simpl; repeat split; intros x Hx;
    try discriminate; try (injection Hx as <-); auto.
Qed.

Lemma perform_frame (c : call) (o : obj) (w : World) :
  let st := fst (perform c (o, w)) in
  files (snd st) = files w /\
  cfg (fst st) = cfg o /\
  model (fst st) = model o /\
  (forall r, _fit o = Some r -> exists r', _fit (fst st) = Some r') /\
  (forall v, draws_cached o = Some v -> draws_cached (fst st) = Some v) /\
  (forall t, summary_cached o = Some t -> summary_cached (fst st) = Some t).
Proof.
  destruct c as [data kw | | |]; simpl.
  - destruct (fit_frame data kw o w) as (H1 & H2 & H3 & H4 & H5 & H6 & _).
    destruct (fit data kw (o, w)) as [[o' w'] r]. simpl in *.
    repeat split; try assumption; try congruence.
    intros r0 Hr. destruct H6 as [E | [r' E]]; rewrite E; eauto.
  - destruct (draws_cases o w)
      as [(v' & Hc & E) | [(v' & Hc & E) | (e' & Hc & E)]];
      rewrite E; simpl; repeat split; eauto; congruence.
  - destruct (summary_cases o w)
      as [(t' & Hc & E) | [(t' & Hc & E) | (e' & Hc & E)]];
      rewrite E; simpl; repeat split; eauto; congruence.
  - rewrite inference_data_cases. simpl. repeat split; eauto.
Qed.

Lemma perform_all_frame (cs : list call) (o : obj) (w : World) :
  let st := fst (perform_all cs (o, w)) in
  files (snd st) = files w /\
  cfg (fst st) = cfg o /\
  model (fst st) = model o /\
  (forall r, _fit o = Some r -> exists r', _fit (fst st) = Some r') /\
  (forall v, draws_cached o = Some v -> draws_cached (fst st) = Some v) /\
  (forall t, summary_cached o = Some t -> summary_cached (fst st) = Some t).
Proof.
  revert o w. induction cs as [| c cs IH]; intros o w; simpl.
  - repeat split; eauto.
  - pose proof (perform_frame c o w) as Hc.
    destruct (perform c (o, w)) as [[o1 w1] a]. simpl in Hc.
    specialize (IH o1 w1).
    destruct (perform_all cs (o1, w1)) as [[o2 w2] answers]. simpl in *.
    destruct Hc as (C1 & C2 & C3 & C4 & C5 & C6).
    destruct IH as (I1 & I2 & I3 & I4 & I5 & I6).
    repeat split; try congruence.
    + intros r Hr. destruct (C4 r Hr) as [r' Hr']. eauto.
    + intros v Hv. eauto.
    + intros t Ht. eauto.
Qed.


(** X17.  A fitted instance stays fitted: after any calls, failing fits
    included, it still holds a fit result and [_check_fit_exists] still
    passes. *)
Theorem fitted_stays_fitted (cs : list call) (o : obj) (w : World)
    (r : MCMC) :
  _fit o = Some r ->
  let st := fst (perform_all cs (o, w)) in
  (exists r', _fit (fst st) = Some r') /\
  _check_fit_exists st = (st, Ok true).
Proof.
  intros Hf st.
  destruct (perform_all_frame cs o w) as (_ & _ & _ & H4 & _).
  fold st in H4. destruct (H4 r Hf) as [r' Hr'].
  destruct st as [o' w']. simpl in *. split; [eauto |].
  unfold _check_fit_exists. unfold_py. simpl. now rewrite Hr'.
Qed.


End RunProperties.

(** ** [MiniAb]: one cache entry for everything, and the template list *)

Section MiniAbMore.
Context `{TC : Toolchain}.

Lemma MiniAb_compile_hit (self : MiniAb.config) (w : World) :
  let path := CACHE_LOCATION +:+ "/" +:+ "1234" in
  is_Some (files w !! path) ->
  MiniAb.compile self w =
    (logged (EvCmdStanModel (ExeFile (PyStr path))) w,
     CmdStanModel w (ExeFile (PyStr path))).
Proof.
  intros path Hf. unfold MiniAb.compile, in_listdir. unfold_py.
  cbn [MiniAb._hash]. fold path.
  rewrite bool_decide_eq_true_2 by exact Hf. reflexivity.
Qed.

(** X19.  Once the cache holds a file named 1234, [MiniAb.compile] does the
    same for every configuration: it loads that one executable, so all
    likelihoods and priors share a single artifact. *)
Theorem MiniAb_compile_shares_one_artifact (c1 c2 : MiniAb.config)
    (w : World) :
  let path := CACHE_LOCATION +:+ "/" +:+ "1234" in
  is_Some (files w !! path) ->
  MiniAb.compile c1 w = MiniAb.compile c2 w /\
  MiniAb.compile c1 w =
    (logged (EvCmdStanModel (ExeFile (PyStr path))) w,
     CmdStanModel w (ExeFile (PyStr path))).
Proof.
  intros path Hf.
  rewrite (MiniAb_compile_hit c1 w Hf), (MiniAb_compile_hit c2 w Hf).
  now split.
Qed.

(** X20.  A first [MiniAb] construction in a cache without the file 1234
    fails with a NameError but creates that file; a second construction,
    of any configuration, then renders nothing and asks cmdstanpy for the
    executable 1234, and succeeds or fails with its answer. *)
Theorem MiniAb_constructed_twice (lik1 lik2 : string) (pri1 pri2 : Priors)
    (w : World) :
  let path := CACHE_LOCATION +:+ "/" +:+ "1234" in
  files w !! path = None ->
  let first := MiniAb.__init__ lik1 pri1 w in
  let second := MiniAb.__init__ lik2 pri2 (fst first) in
  snd first = Raise (NameError "TemplateNotFoundError") /\
  new_events (fst first) (fst second) =
    [EvCmdStanModel (ExeFile (PyStr path))] /\
  snd second =
    match CmdStanModel (fst first) (ExeFile (PyStr path)) with
    | Ok m => Ok {| MiniAb.cfg := {| MiniAb._likelihood := lik2;
                                     MiniAb._priors := pri2 |};
                    MiniAb.model := m |}
    | Raise e => Raise e
    end.
Proof.
  intros path Hf first second.
  assert (E1 : first = (opened path w,
                        Raise (NameError "TemplateNotFoundError"))).
  { unfold first, MiniAb.__init__. unfold_py.
    now rewrite (MiniAb_compile_miss _ w Hf). }
  assert (Hs : is_Some (files (fst first) !! path)).
  { rewrite E1. simpl. rewrite lookup_insert_eq. by eexists. }
  split; [now rewrite E1 |].
  unfold second, MiniAb.__init__. unfold_py.
  rewrite (MiniAb_compile_hit _ (fst first) Hs).
  destruct (CmdStanModel (fst first) _); simpl;
    rewrite new_events_logged; now split.
Qed.

(** X21.  In no world does [MiniAb.compile] look up or render a template,
    write text or hand a source file to cmdstanpy: it either only creates
    the empty file 1234, or only asks for the executable 1234. *)
Theorem MiniAb_compile_never_builds (self : MiniAb.config) (w : World) :
  let path := CACHE_LOCATION +:+ "/" +:+ "1234" in
  let after := fst (MiniAb.compile self w) in
  (new_events w after = [EvOpenW path] /\
   files after = <[path := ""]> (files w)) \/
  (new_events w after = [EvCmdStanModel (ExeFile (PyStr path))] /\
   files after = files w).
Proof.
  intros path after. unfold after.
  destruct (files w !! path) as [old |] eqn:Hf.
  - right. assert (Hs : is_Some (files w !! path)) by (rewrite Hf; eauto).
    rewrite (MiniAb_compile_hit self w Hs). simpl. split; [apply new_events_logged | reflexivity].
  - left. rewrite (MiniAb_compile_miss self w Hf). simpl.
    split; [| reflexivity].
    unfold new_events. simpl.
    now rewrite skipn_app, skipn_all, Nat.sub_diag.
Qed.

End MiniAbMore.

Section TemplateList.

Lemma prefix_suffix_no_dot (c : ascii) (rest : string) :
  is_dot c = false -> String.prefix ".stan" (String c rest) = false.
Proof.
  intros Hc. cbn [String.prefix].
  destruct (ascii_dec "." c) as [<- | _]; [discriminate | reflexivity].
Qed.

Lemma replace_stem (stem : string) :
  dot_free stem -> replace ".stan" "" (stem +:+ ".stan") = stem.
Proof.
  unfold replace, dot_free.
  induction stem as [| c stem IH]; [reflexivity |].
  cbn [string_forall]. intros H. apply andb_prop in H as [Hc Hs].
  apply negb_true_iff in Hc.
  rewrite app_cons. cbn [replace_from].
  rewrite (prefix_suffix_no_dot c _ Hc). now rewrite (IH Hs).
Qed.

Lemma str_length_app (a b : string) :
  String.length (a +:+ b) = (String.length a + String.length b)%nat.
Proof.
  induction a as [| x a IH]; [reflexivity |].
  rewrite app_cons. cbn [String.length]. now rewrite IH.
Qed.

Lemma str_app_inv_tail (a b c : string) : a +:+ c = b +:+ c -> a = b.
Proof.
  revert b. induction a as [| x a IH]; intros [| y b] H.
  - reflexivity.
  - apply (f_equal String.length) in H.
    rewrite app_nil, app_cons in H. cbn [String.length] in H.
    rewrite str_length_app in H. lia.
  - apply (f_equal String.length) in H.
    rewrite app_nil, app_cons in H. cbn [String.length] in H.
    rewrite str_length_app in H. lia.
  - rewrite !app_cons in H. injection H as -> H. now rewrite (IH b H).
Qed.

Lemma stem_is_base (stem : string) :
  dot_free stem ->
  String.eqb (stem +:+ ".stan") "base.stan" = String.eqb stem "base".
Proof.
  intros Hd.
  destruct (String.eqb_spec stem "base") as [-> | Hn].
  - reflexivity.
  - apply String.eqb_neq. intros E. apply Hn.
    now apply (str_app_inv_tail stem "base" ".stan").
Qed.

(** X22.  For a template directory whose entries are stems without a dot
    followed by .stan, LIKELIHOODS is the list of the stems in the order of
    the listing, repetitions kept, without the stem base. *)
Theorem LIKELIHOODS_are_the_stems (stems : list string) :
  Forall dot_free stems ->
  MiniAb.LIKELIHOODS (map (fun stem => stem +:+ ".stan") stems) =
    List.filter (fun stem => negb (String.eqb stem "base")) stems.
Proof.
  unfold MiniAb.LIKELIHOODS.
  induction 1 as [| stem stems Hd _ IH]; [reflexivity |].
  cbn [map List.filter]. rewrite (stem_is_base stem Hd).
  destruct (String.eqb stem "base"); cbn [negb map]; [exact IH |].
  now rewrite (replace_stem stem Hd), IH.
Qed.

Lemma replace_without_occurrence (old new s : string) :
  occurs old s = false -> replace old new s = s.
Proof.
  unfold replace. induction s as [| c s IH]; [reflexivity |].
  cbn [occurs replace_from]. intros H.
  apply orb_false_elim in H as [Hp Ho].
  rewrite Hp. now rewrite (IH Ho).
Qed.

(** X23.  An entry of the template directory in which the text .stan does
    not occur (a sub-directory, a Python file) is not filtered out: it is
    listed among the likelihoods under its full name. *)
Theorem LIKELIHOODS_keep_other_entries (listing : list string)
    (name : string) :
  In name listing ->
  occurs ".stan" name = false ->
  In name (MiniAb.LIKELIHOODS listing).
Proof.
  intros Hin Ho. unfold MiniAb.LIKELIHOODS.
  apply in_map_iff. exists name. split.
  - now apply replace_without_occurrence.
  - apply filter_In. split; [exact Hin |].
    apply negb_true_iff, String.eqb_neq. intros ->. discriminate.
Qed.

End TemplateList.

(** ** The further properties on concrete inputs *)

Section MoreExamples.
Import Toy Cases.


Lemma unsupported_likelihood_error_witness :
  get_template (template_name poisson_cfg) =
    Raise (TemplateNotFound "distributions/poisson.stan") /\
  (truthy PyNone = true \/ files empty_world !! stan_path poisson_cfg = None) /\
  snd (ABayes.__init__ "poisson" ABayes.DEFAULT_PRIORS PyNone PyNone
         empty_world) =
    Raise (ValueError
             ("Cannot build model for likelihood poisson." +:+ str1 newline
                +:+ "Likelihoods available are ['normal', 'bernoulli'].")).
Proof.
  assert (Ht : get_template (template_name poisson_cfg) =
               Raise (TemplateNotFound "distributions/poisson.stan"))
    by reflexivity.
  assert (Hm : truthy PyNone = true \/
               files empty_world !! stan_path poisson_cfg = None)
    by (right; reflexivity).
  split; [exact Ht |]. split; [exact Hm |].
  exact (proj2 (proj2 (proj2
           (unsupported_likelihood_error "poisson" ABayes.DEFAULT_PRIORS
              PyNone PyNone empty_world _ Ht Hm)))).
Defined.

Lemma render_model_propagates_other_errors_witness :
  (exists t,
      @get_template _ Faulty.toolchain
        (template_name bernoulli_cfg) = Ok t /\
      @render _ Faulty.toolchain t (ABayes._priors bernoulli_cfg) =
        Raise (External "UndefinedError")) /\
  snd (@ABayes._render_model _ Faulty.toolchain bernoulli_cfg empty_world) =
    Raise (External "UndefinedError").
Proof.
  assert (H : exists t,
             @get_template _ Faulty.toolchain
               (template_name bernoulli_cfg) = Ok t /\
             @render _ Faulty.toolchain t (ABayes._priors bernoulli_cfg) =
               Raise (External "UndefinedError")).
  { exists "distributions/bernoulli.stan". split; reflexivity. }
  split; [exact H |].
  exact (proj1 (@render_model_propagates_other_errors _ Faulty.toolchain
                  bernoulli_cfg empty_world _ (or_intror H))).
Defined.

Lemma render_model_ignores_case_witness :
  get_template (template_name capital_cfg) = Ok "distributions/normal.stan" /\
  ABayes._render_model normal_cfg empty_world =
  ABayes._render_model capital_cfg empty_world.
Proof.
  assert (Ht : get_template (template_name capital_cfg) =
               Ok "distributions/normal.stan") by reflexivity.
  split; [exact Ht |].
  exact (proj2 (render_model_ignores_case "Normal" ABayes.DEFAULT_PRIORS
                  empty_world _ Ht)).
Defined.

Lemma home_holds_source :
  files home !! stan_path normal_cfg =
    Some ("distributions/normal.stan" +:+ ": " +:+
          Json.dumps_dict ABayes.DEFAULT_PRIORS).
Proof. vm_compute. reflexivity. Qed.

Lemma compile_reuses_cached_artifact_witness :
  is_Some (files home !! stan_path normal_cfg) /\
  truthy PyNone = false /\
  new_events home (fst (ABayes.compile normal_cfg PyNone home)) =
    [EvCmdStanModel (ExeFile (PyStr (exe_path normal_cfg)))] /\
  files (fst (ABayes.compile normal_cfg PyNone home)) = files home.
Proof.
  assert (Hs : is_Some (files home !! stan_path normal_cfg))
    by (eexists; apply home_holds_source).
  split; [exact Hs |]. split; [reflexivity |].
  destruct (compile_reuses_cached_artifact normal_cfg PyNone home Hs eq_refl)
    as (_ & Hf & He).
  split; [exact He | exact Hf].
Defined.

Lemma compile_writes_rendered_source_witness :
  (truthy (PyBool true) = true \/ files home !! stan_path normal_cfg = None) /\
  get_template (template_name normal_cfg) = Ok "distributions/normal.stan" /\
  render "distributions/normal.stan" (ABayes._priors normal_cfg) =
    Ok ("distributions/normal.stan" +:+ ": " +:+
        Json.dumps_dict ABayes.DEFAULT_PRIORS) /\
  files (fst (ABayes.compile normal_cfg (PyBool true) home))
    !! stan_path normal_cfg =
    Some ("distributions/normal.stan" +:+ ": " +:+
          Json.dumps_dict ABayes.DEFAULT_PRIORS).
Proof.
  assert (Hm : truthy (PyBool true) = true \/
               files home !! stan_path normal_cfg = None)
    by (left; reflexivity).
  assert (Ht : get_template (template_name normal_cfg) =
               Ok "distributions/normal.stan") by reflexivity.
  assert (Hr : render "distributions/normal.stan"
                 (ABayes._priors normal_cfg) =
               Ok ("distributions/normal.stan" +:+ ": " +:+
                   Json.dumps_dict ABayes.DEFAULT_PRIORS)) by reflexivity.
  split; [exact Hm |]. split; [exact Ht |]. split; [exact Hr |].
  exact (proj1 (compile_writes_rendered_source normal_cfg (PyBool true) home
                  _ _ Hm Ht Hr)).
Defined.


Lemma accessors_need_a_successful_fit_witness :
  ABayes.__init__ "normal" ABayes.DEFAULT_PRIORS PyNone PyNone empty_world =
    (home, Ok fresh) /\
  forallb (fun a => negb (fit_succeeded a))
    (snd (perform_all [ReadDraws; CallFit (DSeq [control]) []; ReadSummary]
            (fresh, home))) = true /\
  snd (ABayes.draws
         (fst (perform_all
                 [ReadDraws; CallFit (DSeq [control]) []; ReadSummary]
                 (fresh, home)))) = Raise not_fit_yet.
Proof.
  assert (H1 : ABayes.__init__ "normal" ABayes.DEFAULT_PRIORS PyNone PyNone
                 empty_world = (home, Ok fresh))
    by (vm_compute; reflexivity).
  assert (H2 : forallb (fun a => negb (fit_succeeded a))
                 (snd (perform_all
                         [ReadDraws; CallFit (DSeq [control]) []; ReadSummary]
                         (fresh, home))) = true) by reflexivity.
  split; [exact H1 |]. split; [exact H2 |].
  destruct (accessors_need_a_successful_fit _ _ _ _ _ _ _ _ H1 H2)
    as (Hd & _).
  now rewrite Hd.
Defined.

Lemma fit_sampler_failure_keeps_previous_fit_witness :
  two_groups (DSeq [[]; []]) = Some ([], []) /\
  has_key "show_console" ([] : Kwargs) = false /\
  @sample _ Faulty.toolchain empty_world (ABayes.model Faulty.fitted)
    (record_of [] []) [("show_console", PyBool true)] =
    Raise (External "RuntimeError: no observations") /\
  ABayes._fit
    (fst (fst (@ABayes.fit _ Faulty.toolchain (DSeq [[]; []]) []
                 (Faulty.fitted, empty_world)))) = Some (10, ten_labels) /\
  snd (@ABayes.fit _ Faulty.toolchain (DSeq [[]; []]) []
         (Faulty.fitted, empty_world)) =
    Raise (External "RuntimeError: no observations").
Proof.
  assert (Hs : @sample _ Faulty.toolchain empty_world
                 (ABayes.model Faulty.fitted) (record_of [] [])
                 ([] ++ [("show_console", PyBool true)]) =
               Raise (External "RuntimeError: no observations"))
    by reflexivity.
  split; [reflexivity |]. split; [reflexivity |]. split; [exact Hs |].
  rewrite (@fit_sampler_failure_keeps_previous_fit _ Faulty.toolchain
             Faulty.fitted empty_world (DSeq [[]; []]) [] [] [] _
             eq_refl eq_refl Hs).
  split; reflexivity.
Defined.



Lemma fitted_stays_fitted_witness :
  ABayes._fit fitted = Some (10, ten_labels) /\
  ABayes._check_fit_exists
    (fst (perform_all [CallFit (DSeq [control]) []; ReadDraws] (fitted, home)))
  = (fst (perform_all [CallFit (DSeq [control]) []; ReadDraws] (fitted, home)),
     Ok true).
Proof.
  split; [reflexivity |].
  exact (proj2 (fitted_stays_fitted
                  [CallFit (DSeq [control]) []; ReadDraws] fitted home
                  (10, ten_labels) eq_refl)).
Defined.


Lemma with_1234_holds_file :
  files with_1234 !! (CACHE_LOCATION +:+ "/" +:+ "1234") = Some "".
Proof. vm_compute. reflexivity. Qed.

Lemma MiniAb_compile_shares_one_artifact_witness :
  is_Some (files with_1234 !! (CACHE_LOCATION +:+ "/" +:+ "1234")) /\
  MiniAb.compile miniab_cfg with_1234 =
  MiniAb.compile miniab_other_cfg with_1234.
Proof.
  assert (Hs : is_Some (files with_1234 !! (CACHE_LOCATION +:+ "/" +:+ "1234")))
    by (eexists; apply with_1234_holds_file).
  split; [exact Hs |].
  exact (proj1 (MiniAb_compile_shares_one_artifact miniab_cfg
                  miniab_other_cfg with_1234 Hs)).
Defined.

Lemma MiniAb_constructed_twice_witness :
  files empty_world !! (CACHE_LOCATION +:+ "/" +:+ "1234") = None /\
  snd (MiniAb.__init__ "normal" MiniAb.DEFAULT_PRIORS empty_world) =
    Raise (NameError "TemplateNotFoundError") /\
  new_events
    (fst (MiniAb.__init__ "normal" MiniAb.DEFAULT_PRIORS empty_world))
    (fst (MiniAb.__init__ "bernoulli" [("mu", "normal(0, 5)")]
            (fst (MiniAb.__init__ "normal" MiniAb.DEFAULT_PRIORS
                    empty_world)))) =
    [EvCmdStanModel (ExeFile (PyStr "/cache/1234"))].
Proof.
  assert (Hf : files empty_world !! (CACHE_LOCATION +:+ "/" +:+ "1234") = None)
    by reflexivity.
  split; [exact Hf |].
  destruct (MiniAb_constructed_twice "normal" "bernoulli"
              MiniAb.DEFAULT_PRIORS [("mu", "normal(0, 5)")] empty_world Hf)
    as (H1 & H2 & _).
  split; [exact H1 | exact H2].
Defined.

Lemma LIKELIHOODS_are_the_stems_witness :
  Forall dot_free ["normal"; "base"; "bernoulli"] /\
  MiniAb.LIKELIHOODS template_listing = ["normal"; "bernoulli"].
Proof.
  assert (Hd : Forall dot_free ["normal"; "base"; "bernoulli"])
    by (repeat constructor).
  split; [exact Hd |].
  exact (LIKELIHOODS_are_the_stems ["normal"; "base"; "bernoulli"] Hd).
Defined.

Lemma LIKELIHOODS_keep_other_entries_witness :
  In "__pycache__" ["normal.stan"; "__pycache__"; "base.stan"] /\
  occurs ".stan" "__pycache__" = false /\
  In "__pycache__"
     (MiniAb.LIKELIHOODS ["normal.stan"; "__pycache__"; "base.stan"]).
Proof.
  assert (Hi : In "__pycache__" ["normal.stan"; "__pycache__"; "base.stan"])
    by (simpl; auto).
  split; [exact Hi |]. split; [reflexivity |].
  exact (LIKELIHOODS_keep_other_entries _ _ Hi eq_refl).
Defined.

End MoreExamples.
